(** * analyze_pylint: a shallow embedding of [scrapy/analyze_pylint.py]

    The script reads a pylint report, groups the diagnostics per module,
    counts them per category, derives an "estimated false positive rate"
    and writes a textual report.  The three functions of the script,
    [parse_pylint_output], [generate_statistics] and [write_to_file], are
    embedded below as executable definitions; the file and the command
    line are left outside (the parser starts from the decoded text of the
    input file, the formatter returns the text it writes).

    Modelling choices:
    - a Python [str] is a list of Unicode code points ([N]);
    - a Python [dict] is an association list with unique keys kept in
      insertion order (assigning to a key that is present keeps its place);
    - a Python [int] is a [Z];
    - a Python [float] is an IEEE 754 binary64 number, [spec_float] with
      precision 53 and maximal exponent 1024;
    - a call that can raise returns a [result]: a value or an exception. *)

From Stdlib Require Import ZArith NArith List String Ascii Bool Lia.
From Stdlib Require Import QArith Permutation.
From Stdlib Require Import DecimalString.
From Stdlib Require Import Floats.SpecFloat.
Import ListNotations.

Local Open Scope Z_scope.

(** ** Python strings *)

Module PyStr.

Definition char := N.
Definition str := list char.

(** A literal of the source, as a list of code points. *)
Definition lit (s : string) : str := map N_of_ascii (list_ascii_of_string s).
Arguments lit s%_string.

(** [str.isspace] on one character: the code points that [str.strip]
    removes when it is called without argument. *)
Definition isspace (c : char) : bool :=
  ((9 <=? c) && (c <=? 13) || (28 <=? c) && (c <=? 32)
   || (c =? 133) || (c =? 160) || (c =? 5760)
   || (8192 <=? c) && (c <=? 8202)
   || (c =? 8232) || (c =? 8233) || (c =? 8239) || (c =? 8287)
   || (c =? 12288))%N.

Fixpoint lstrip (s : str) : str :=
  match s with
  | [] => []
  | c :: r => if isspace c then lstrip r else s
  end.

Definition rstrip (s : str) : str := rev (lstrip (rev s)).

Definition strip (s : str) : str := rstrip (lstrip s).

Fixpoint eqb (s t : str) : bool :=
  match s, t with
  | [], [] => true
  | c :: s', d :: t' => (c =? d)%N && eqb s' t'
  | _, _ => false
  end.

(** [s.startswith(p)] *)
Fixpoint startswith (s p : str) : bool :=
  match p with
  | [] => true
  | c :: p' =>
      match s with
      | [] => false
      | d :: s' => (d =? c)%N && startswith s' p'
      end
  end.

(** [s.split(sep)] for a separator of one character: never empty. *)
Fixpoint split (sep : char) (s : str) : list str :=
  match s with
  | [] => [[]]
  | c :: r =>
      if (c =? sep)%N then [] :: split sep r
      else match split sep r with
           | [] => [[c]]
           | seg :: segs => (c :: seg) :: segs
           end
  end.

(** [s[n:]] *)
Definition slice_from (n : nat) (s : str) : str := skipn n s.

(** Truth value of a string: non-empty. *)
Definition truthy (s : str) : bool :=
  match s with [] => false | _ :: _ => true end.

(** [str(n)] for an [int] *)
Definition of_int (n : Z) : str := lit (NilZero.string_of_int (Z.to_int n)).

(** Text-mode reading with universal newlines: ["\r\n"] and ["\r"] are
    read as ["\n"]. *)
Fixpoint translate_newlines (s : str) : str :=
  match s with
  | [] => []
  | c :: r =>
      if (c =? 13)%N then
        match r with
        | d :: r' => if (d =? 10)%N then 10%N :: translate_newlines r'
                     else 10%N :: translate_newlines r
        | [] => [10%N]
        end
      else c :: translate_newlines r
  end.

(** Lines of a text, each one with its final ["\n"] when it has one. *)
Fixpoint lines_from (cur : str) (s : str) : list str :=
  match s with
  | [] => match cur with [] => [] | _ => [rev cur] end
  | c :: r =>
      if (c =? 10)%N then rev (c :: cur) :: lines_from [] r
      else lines_from (c :: cur) r
  end.

(** [file.readlines()] on the decoded text of a file opened with ['r']. *)
Definition readlines (text : str) : list str :=
  lines_from [] (translate_newlines text).

End PyStr.
Import PyStr.

(** ** Exceptions *)

Inductive exn : Type :=
| IndexError
| KeyError
| ZeroDivisionError
| OverflowError.

Inductive result (A : Type) : Type :=
| Ok (a : A)
| Raise (e : exn).
Arguments Ok {A} a.
Arguments Raise {A} e.

Definition bind {A B : Type} (r : result A) (k : A -> result B) : result B :=
  match r with
  | Ok a => k a
  | Raise e => Raise e
  end.

Notation "x <- r ;; k" := (bind r (fun x => k))
  (at level 61, r at next level, right associativity).

(** [l[i]] on a list: [IndexError] out of range. *)
Definition index {A : Type} (l : list A) (i : nat) : result A :=
  match nth_error l i with
  | Some a => Ok a
  | None => Raise IndexError
  end.

(** [s[i]] on a string: the string of that one character. *)
Definition char_at (s : str) (i : nat) : result str :=
  c <- index s i ;; Ok [c].

(** ** Python dictionaries with string keys *)

Module Dict.
Section WithValues.
Context {V : Type}.

Definition t := list (str * V).

Definition empty : t := [].

Fixpoint get (d : t) (k : str) : option V :=
  match d with
  | [] => None
  | (k', v) :: r => if PyStr.eqb k' k then Some v else get r k
  end.

(** [d[k]] *)
Definition getitem (d : t) (k : str) : result V :=
  match get d k with
  | Some v => Ok v
  | None => Raise KeyError
  end.

(** [k in d] *)
Definition mem (d : t) (k : str) : bool :=
  match get d k with Some _ => true | None => false end.

(** [d[k] = v]: a present key keeps its place, a new key goes last. *)
Fixpoint set (d : t) (k : str) (v : V) : t :=
  match d with
  | [] => [(k, v)]
  | (k', v') :: r =>
      if PyStr.eqb k' k then (k', v) :: r else (k', v') :: set r k v
  end.

Definition keys (d : t) : list str := map fst d.

(** [d.values()] *)
Definition values (d : t) : list V := map snd d.
End WithValues.
Arguments t : clear implicits.
End Dict.

(** ** [parse_pylint_output] *)

(** The tuple [(file_info, error_type, full_error)] appended per line. *)
Record diagnostic : Type := Diagnostic {
  file_info : str;
  error_type : str;
  full_error : str
}.

Definition report := Dict.t (list diagnostic).

Definition marker : str := lit "************* Module ".

Definition colon : char := 58%N.

(** The part of the [try] block that builds the tuple of a stripped line. *)
Definition parse_line (line : str) : result diagnostic :=
  let parts := split colon line in
  p0 <- index parts 0 ;;
  let file_info := strip p0 in
  p3 <- index parts 3 ;;
  error_type <- char_at (strip p3) 0 ;;
  let full_error := line in
  Ok (Diagnostic file_info error_type full_error).

(** The whole [try] block: the tuple is appended to the list stored under
    [current_module]. *)
Definition try_append (analysis : report) (current_module line : str)
  : result report :=
  d <- parse_line line ;;
  errors <- Dict.getitem analysis current_module ;;
  Ok (Dict.set analysis current_module (errors ++ [d])).

Record parser_state : Type := ParserState {
  analysis : report;
  current_module : option str
}.

Definition initial_state : parser_state := ParserState Dict.empty None.

(** [current_module and line] *)
Definition open_and_nonempty (cm : option str) (line : str) : option str :=
  match cm with
  | Some m => if truthy m && truthy line then Some m else None
  | None => None
  end.

(** One turn of the loop over [lines]. *)
Definition process_line (st : parser_state) (raw : str) : parser_state :=
  let line := strip raw in
  if startswith line marker then
    let m := slice_from (List.length marker) line in
    ParserState (Dict.set (analysis st) m []) (Some m)
  else
    match open_and_nonempty (current_module st) line with
    | Some m =>
        match try_append (analysis st) m line with
        | Ok a => ParserState a (current_module st)
        | Raise _ => st
        end
    | None => st
    end.

Definition parse_lines (lines : list str) : parser_state :=
  fold_left process_line lines initial_state.

(** [parse_pylint_output], from the lines that [readlines] returned. *)
Definition parse_pylint_output (lines : list str) : report :=
  analysis (parse_lines lines).

(** ** Python floats and integer division *)

Module PyFloat.

Definition prec : Z := 53.
Definition emax : Z := 1024.

Definition float := spec_float.

(** The literal [0.0]. *)
Definition zero : float := S754_zero false.

(** [float(n)], as done on the [int] operand of a mixed operation. *)
Definition of_int (n : Z) : float := binary_normalize prec emax n 0 false.

Definition mul : float -> float -> float := SFmul prec emax.
Definition sub : float -> float -> float := SFsub prec emax.

(** [a / b] on two [int]: the quotient of the two integers rounded once
    to the nearest float (ties to even); [ZeroDivisionError] for a zero
    divisor, [OverflowError] when the quotient is too large. *)
Definition int_truediv (a b : Z) : result float :=
  if b =? 0 then Raise ZeroDivisionError
  else if a =? 0 then Ok (S754_zero (b <? 0))
  else
    match SFdiv prec emax
            (S754_finite (a <? 0) (Z.to_pos (Z.abs a)) 0)
            (S754_finite (b <? 0) (Z.to_pos (Z.abs b)) 0) with
    | S754_infinity _ => Raise OverflowError
    | q => Ok q
    end.

(** [n / d] rounded to the nearest integer, ties to even ([0 <= n],
    [0 < d]). *)
Definition round_half_even (n d : Z) : Z :=
  let q := n / d in
  match 2 * (n mod d) ?= d with
  | Lt => q
  | Gt => q + 1
  | Eq => if Z.even q then q else q + 1
  end.

(** The number of hundredths nearest to [m * 2^e]. *)
Definition hundredths (m : positive) (e : Z) : Z :=
  match e with
  | Zneg p => round_half_even (Zpos m * 100) (2 ^ Zpos p)
  | _ => Zpos m * 2 ^ e * 100
  end.

Definition digit (n : Z) : char := (48 + Z.to_N n)%N.

Definition fixed2 (negative : bool) (h : Z) : str :=
  (if negative then lit "-" else [])
    ++ PyStr.of_int (h / 100) ++ lit "."
    ++ [digit (h mod 100 / 10); digit (h mod 10)].

(** [format(x, ".2f")] *)
Definition format_2f (x : float) : str :=
  match x with
  | S754_zero s => fixed2 s 0
  | S754_finite s m e => fixed2 s (hundredths m e)
  | S754_infinity s => if s then lit "-inf" else lit "inf"
  | S754_nan => lit "nan"
  end.

(** The rational number a finite float stands for. *)
Definition to_Q (x : float) : option Q :=
  match x with
  | S754_zero _ => Some 0%Q
  | S754_finite s m e =>
      let v := match e with
               | Zneg p => Qmake (Zpos m) (2 ^ p)
               | _ => inject_Z (Zpos m * 2 ^ e)
               end in
      Some (if s then Qopp v else v)
  | _ => None
  end.

End PyFloat.
Import PyFloat.

(** ** [generate_statistics] *)

Definition nl : str := [10%N].

Definition initial_counts : Dict.t Z :=
  [(lit "E", 0); (lit "W", 0); (lit "C", 0);
   (lit "R", 0); (lit "F", 0); (lit "I", 0)].

(** [if error_type in pylint_counts: pylint_counts[error_type] += 1] *)
Definition count_error (counts : Dict.t Z) (d : diagnostic) : Dict.t Z :=
  match Dict.get counts (error_type d) with
  | Some n => Dict.set counts (error_type d) (n + 1)
  | None => counts
  end.

Definition count_module (counts : Dict.t Z) (module_errors : list diagnostic)
  : Dict.t Z :=
  fold_left count_error module_errors counts.

Definition pylint_counts (analysis : report) : Dict.t Z :=
  fold_left count_module (Dict.values analysis) initial_counts.

(** [sum(l)] *)
Definition sum (l : list Z) : Z := fold_left Z.add l 0.

Definition total_issues (analysis : report) : Z :=
  sum (Dict.values (pylint_counts analysis)).

Definition left_sum (analysis : report) : result Z :=
  f <- Dict.getitem (pylint_counts analysis) (lit "F") ;;
  e <- Dict.getitem (pylint_counts analysis) (lit "E") ;;
  Ok (f + e).

Definition false_positive_rate (analysis : report) : result PyFloat.float :=
  left_sum <- left_sum analysis ;;
  if left_sum =? 0 then Ok PyFloat.zero
  else
    q <- PyFloat.int_truediv left_sum (total_issues analysis) ;;
    Ok (PyFloat.sub (PyFloat.of_int 100) (PyFloat.mul q (PyFloat.of_int 100))).

(** One line ["<label>: <n>\n"] of the statistics. *)
Definition count_line (label : str) (n : Z) : str :=
  label ++ lit ": " ++ PyStr.of_int n ++ nl.

Definition rate_line (rate : PyFloat.float) : str :=
  lit "Estimated False Positive Rate: " ++ PyFloat.format_2f rate
    ++ lit "%" ++ nl.

Definition generate_statistics (analysis : report) : result str :=
  let counts := pylint_counts analysis in
  false_positive_rate <- false_positive_rate analysis ;;
  e <- Dict.getitem counts (lit "E") ;;
  w <- Dict.getitem counts (lit "W") ;;
  c <- Dict.getitem counts (lit "C") ;;
  r <- Dict.getitem counts (lit "R") ;;
  f <- Dict.getitem counts (lit "F") ;;
  i <- Dict.getitem counts (lit "I") ;;
  Ok (count_line (lit "Total Issues") (total_issues analysis)
        ++ count_line (lit "Errors") e
        ++ count_line (lit "Warnings") w
        ++ count_line (lit "Conventions") c
        ++ count_line (lit "Refactors") r
        ++ count_line (lit "Fatals") f
        ++ count_line (lit "Informations") i
        ++ rate_line false_positive_rate).

(** ** [write_to_file] *)

(** What the two [if] of the inner loop write for one tuple. *)
Definition bug_lines (error : diagnostic) : str :=
  (if PyStr.eqb (error_type error) (lit "E")
   then lit "Error: " ++ full_error error ++ nl else [])
    ++ (if PyStr.eqb (error_type error) (lit "F")
        then lit "Fatal: " ++ full_error error ++ nl else []).

(** The text written to the output file. *)
Definition write_to_file (analysis : report) (statistics : str) : str :=
  lit "Potential Bugs:" ++ nl
    ++ flat_map (fun errors => flat_map bug_lines errors) (Dict.values analysis)
    ++ nl ++ lit "Statistics:" ++ nl
    ++ statistics.

(** ** The script: parse, aggregate, format *)

Definition run (lines : list str) : result str :=
  let analysis := parse_pylint_output lines in
  statistics <- generate_statistics analysis ;;
  Ok (write_to_file analysis statistics).

Definition main (text : str) : result str := run (readlines text).


(** ** Vocabulary of the statements *)

(** *** Lines and labels *)

(** A line whose stripped content starts with the marker. *)
Definition is_marker (raw : str) : bool := startswith (strip raw) marker.

(** What follows the marker on such a line. *)
Definition label_of (raw : str) : str :=
  slice_from (List.length marker) (strip raw).

(** A stripped line with fewer than four segments between colons, or
    whose fourth segment is empty once stripped. *)
Definition malformed (line : str) : Prop :=
  (List.length (split colon line) < 4)%nat
  \/ exists p3, nth_error (split colon line) 3 = Some p3 /\ strip p3 = [].

(** The tuples of the lines that parse. *)
Definition diagnostics_of (lines : list str) : list diagnostic :=
  flat_map (fun raw => match parse_line (strip raw) with
                       | Ok d => [d]
                       | Raise _ => []
                       end) lines.

(** The lines that come before the next marker. *)
Fixpoint until_marker (lines : list str) : list str :=
  match lines with
  | [] => []
  | l :: r => if is_marker l then [] else l :: until_marker r
  end.

(** No marker of the label [L] among the lines. *)
Definition no_marker_of (L : str) (lines : list str) : Prop :=
  forall l, In l lines -> is_marker l = true -> label_of l <> L.

(** *** Counts *)

(** The six recognized codes, in the order of [pylint_counts]. *)
Definition codes : list str :=
  [lit "E"; lit "W"; lit "C"; lit "R"; lit "F"; lit "I"].

(** A diagnostic whose category is one of the six codes. *)
Definition recognized (d : diagnostic) : bool :=
  existsb (fun code => PyStr.eqb code (error_type d)) codes.

(** The counting dictionary with the given six values. *)
Definition counts_of (e w c r f i : Z) : Dict.t Z :=
  [(lit "E", e); (lit "W", w); (lit "C", c);
   (lit "R", r); (lit "F", f); (lit "I", i)].

(** The counting dictionary keeps its six keys; its values are natural
    numbers that add up to [n]. *)
Definition tally (counts : Dict.t Z) (n : Z) : Prop :=
  exists e w c r f i,
    counts = counts_of e w c r f i
    /\ 0 <= e /\ 0 <= w /\ 0 <= c /\ 0 <= r /\ 0 <= f /\ 0 <= i
    /\ e + w + c + r + f + i = n.

(** 1 for [true], 0 for [false]. *)
Definition one_if (b : bool) : Z := if b then 1 else 0.

(** Case analysis on every comparison of strings of the goal. *)
Ltac case_codes :=
  repeat match goal with
         | |- context [PyStr.eqb ?a ?b] =>
             destruct (PyStr.eqb a b) eqn:?; cbn -[PyStr.eqb lit Z.add]
         end.

(** *** Floats and their text *)

(** The float [100.0]. *)
Definition hundred : float := S754_finite false 7036874417766400 (-46).

(** A float that is [+0.0] or positive. *)
Definition nonnegative (x : float) : Prop :=
  match x with
  | S754_zero false | S754_finite false _ _ => True
  | _ => False
  end.

(** A float that is [+0.0], when [A] is 0, or positive with a value
    between [A * 2^(-k)] and [B * 2^(-k)]. *)
Definition between (A B k : Z) (x : float) : Prop :=
  (x = S754_zero false /\ A = 0)
  \/ exists m e, x = S754_finite false m e /\ e <= - k
                 /\ A * 2 ^ (- e - k) <= Zpos m <= B * 2 ^ (- e - k).

(** Nothing was left out of the mantissa. *)
Definition loc_exact (l : location) : bool :=
  match l with loc_Exact => true | loc_Inexact _ => false end.

(** The mantissa once the bits set aside are counted as a full unit. *)
Definition ceiling (mrs : shr_record) : Z :=
  if shr_r mrs || shr_s mrs then shr_m mrs + 1 else shr_m mrs.

(** A shifted mantissa, with what was shifted out, between the bounds. *)
Definition fits (A B k : Z) (mrs : shr_record) (e : Z) : Prop :=
  0 <= shr_m mrs /\ e <= - k
  /\ A * 2 ^ (- e - k) <= shr_m mrs
  /\ ceiling mrs <= B * 2 ^ (- e - k).

(** The code point of a decimal digit. *)
Definition is_digit (c : char) : Prop := (48 <= c <= 57)%N.

(** *** The text of the report *)

(** A diagnostic listed under "Potential Bugs:". *)
Definition is_potential_bug (d : diagnostic) : bool :=
  PyStr.eqb (error_type d) (lit "E") || PyStr.eqb (error_type d) (lit "F").

(** The line of a listed diagnostic. *)
Definition listed_line (d : diagnostic) : str :=
  (if PyStr.eqb (error_type d) (lit "E") then lit "Error: "
   else lit "Fatal: ") ++ full_error d ++ nl.

(** The statistics of the empty report. *)
Definition empty_statistics : str :=
  count_line (lit "Total Issues") 0
    ++ count_line (lit "Errors") 0
    ++ count_line (lit "Warnings") 0
    ++ count_line (lit "Conventions") 0
    ++ count_line (lit "Refactors") 0
    ++ count_line (lit "Fatals") 0
    ++ count_line (lit "Informations") 0
    ++ lit "Estimated False Positive Rate: 0.00%" ++ nl.

(** The text made of the given lines, each one ended by a newline. *)
Definition unlines (lines : list str) : str :=
  flat_map (fun l => l ++ nl) lines.

(** *** Inputs *)

(** The lines of the first scenario: one error and one warning under one
    module. *)
Definition scenario_A : list str :=
  [lit "************* Module foo";
   lit "foo.py:1:0: E0001: syntax error (syntax-error)";
   lit "foo.py:2:0: W0611: unused import (unused-import)"].

(** The scenarios with a malformed line, with a label that comes twice
    and with a fatal message. *)
Definition scenario_B : list str :=
  [lit "************* Module foo"; lit "foo.py:oops"].

Definition scenario_C : list str :=
  [lit "************* Module foo";
   lit "foo.py:1:0: E0001: syntax error (syntax-error)";
   lit "************* Module foo";
   lit "foo.py:2:0: W0611: unused import (unused-import)"].

Definition scenario_D : list str :=
  [lit "************* Module foo";
   lit "foo.py:3:0: F0002: internal error (astroid-error)"].

(** A tuple whose category is none of the six codes. *)
Definition an_unrecognized : diagnostic :=
  Diagnostic (lit "foo.py") (lit "X") (lit "foo.py:1:0: X1: x").

(** A tuple of category ['E'] and one of category ['W']. *)
Definition an_error : diagnostic :=
  Diagnostic (lit "a.py") (lit "E") (lit "a.py:1:0: E0001: e").

Definition a_warning : diagnostic :=
  Diagnostic (lit "a.py") (lit "W") (lit "a.py:2:0: W0001: w").

(** A report larger than any run can hold, on which the rate is rounded
    to 100: one error among [2^54] tuples. *)
Definition huge_report : report :=
  [(lit "a", an_error :: repeat a_warning (Z.to_nat (2 ^ 54 - 1)))].

(** *** Vocabulary of the further properties *)

(** The keys of a dictionary after an assignment to [k]. *)
Definition add_key (ks : list str) (k : str) : list str :=
  if existsb (fun k' => PyStr.eqb k' k) ks then ks else ks ++ [k].

(** The labels of the marker lines, each one at its first occurrence. *)
Definition first_labels (lines : list str) : list str :=
  fold_left add_key (map label_of (filter is_marker lines)) [].

(** The lines from the first marker line on. *)
Fixpoint from_first_marker (lines : list str) : list str :=
  match lines with
  | [] => []
  | l :: r => if is_marker l then l :: r else from_first_marker r
  end.

(** The lines that are read as diagnostics: after the first marker, and
    no marker themselves. *)
Definition candidate_lines (lines : list str) : list str :=
  filter (fun l => negb (is_marker l)) (from_first_marker lines).

(** All the tuples of a report, unit after unit. *)
Definition all_diagnostics (analysis : report) : list diagnostic :=
  List.concat (Dict.values analysis).

(** The number of tuples of the given category. *)
Definition count_code (code : str) (ds : list diagnostic) : Z :=
  Z.of_nat
    (List.length (filter (fun d => PyStr.eqb code (error_type d)) ds)).

(** The current module, when there is one, is not empty and is a key of
    the report. *)
Definition current_is_key (st : parser_state) : Prop :=
  forall m, current_module st = Some m ->
            truthy m = true /\ exists ds, Dict.get (analysis st) m = Some ds.

(** A tuple built from one of the lines, which is no marker. *)
Definition came_from (lines : list str) (d : diagnostic) : Prop :=
  exists raw, In raw lines /\ is_marker raw = false
              /\ parse_line (strip raw) = Ok d.

(** Every tuple of the report has the property [P]. *)
Definition every_diagnostic (P : diagnostic -> Prop) (analysis : report)
  : Prop :=
  forall k ds d, In (k, ds) analysis -> In d ds -> P d.

(** The report without the tuples whose category is none of the six
    codes. *)
Definition only_recognized (analysis : report) : report :=
  map (fun unit => (fst unit, filter recognized (snd unit))) analysis.

(** * Properties *)

(** ** The documented scenarios, run *)

Example scenario_A_runs :
  main (unlines scenario_A)
  = Ok (unlines
          [lit "Potential Bugs:";
           lit "Error: foo.py:1:0: E0001: syntax error (syntax-error)";
           lit "";
           lit "Statistics:";
           lit "Total Issues: 2";
           lit "Errors: 1";
           lit "Warnings: 1";
           lit "Conventions: 0";
           lit "Refactors: 0";
           lit "Fatals: 0";
           lit "Informations: 0";
           lit "Estimated False Positive Rate: 50.00%"]).
Proof. vm_compute. reflexivity. Qed.

Example scenario_B_runs :
  parse_pylint_output scenario_B = [(lit "foo", [])]
  /\ total_issues (parse_pylint_output scenario_B) = 0.
Proof. split; reflexivity. Qed.

Example scenario_C_runs :
  parse_pylint_output scenario_C
  = [(lit "foo",
      [Diagnostic (lit "foo.py") (lit "W")
         (lit "foo.py:2:0: W0611: unused import (unused-import)")])].
Proof. reflexivity. Qed.

Example scenario_D_runs :
  main (unlines scenario_D)
  = Ok (unlines
          [lit "Potential Bugs:";
           lit "Fatal: foo.py:3:0: F0002: internal error (astroid-error)";
           lit "";
           lit "Statistics:";
           lit "Total Issues: 1";
           lit "Errors: 0";
           lit "Warnings: 0";
           lit "Conventions: 0";
           lit "Refactors: 0";
           lit "Fatals: 1";
           lit "Informations: 0";
           lit "Estimated False Positive Rate: 0.00%"]).
Proof. vm_compute. reflexivity. Qed.

(** One third, two thirds and one eighth, as Python prints them. *)
Example rates_two_decimals :
  (q <- int_truediv 1 3 ;; Ok (format_2f (sub (of_int 100) (mul q (of_int 100)))))
  = Ok (lit "66.67")
  /\ (q <- int_truediv 2 3 ;; Ok (format_2f (sub (of_int 100) (mul q (of_int 100)))))
     = Ok (lit "33.33")
  /\ (q <- int_truediv 1 8 ;; Ok (format_2f q)) = Ok (lit "0.12")
  /\ (q <- int_truediv 3 8 ;; Ok (format_2f q)) = Ok (lit "0.38")
  /\ (q <- int_truediv 2675 1000 ;; Ok (format_2f q)) = Ok (lit "2.67")
  /\ format_2f (of_int 100) = lit "100.00"
  /\ format_2f (S754_zero true) = lit "-0.00"
  /\ int_truediv 1 3 = Ok (S754_finite false 6004799503160661 (-54))
  /\ int_truediv 1 0 = Raise ZeroDivisionError.
Proof. repeat split; vm_compute; reflexivity. Qed.

(** On integers that are floats themselves, the quotient rounded once is
    the quotient of the two floats. *)
Example int_truediv_as_float_division :
  int_truediv 1 3 = Ok (SFdiv prec emax (of_int 1) (of_int 3))
  /\ int_truediv 7 10 = Ok (SFdiv prec emax (of_int 7) (of_int 10))
  /\ int_truediv 123456789 987654321
     = Ok (SFdiv prec emax (of_int 123456789) (of_int 987654321))
  /\ int_truediv (-5) 3 = Ok (SFdiv prec emax (of_int (-5)) (of_int 3)).
Proof. repeat split; vm_compute; reflexivity. Qed.

(** ** Strings *)

Lemma eqb_eq (s t : str) : PyStr.eqb s t = true <-> s = t.
Proof.
  revert t; induction s as [|c s IH]; intros [|d t]; simpl;
    try (split; [discriminate | discriminate]); try tauto.
  rewrite andb_true_iff, N.eqb_eq, IH.
  split; [intros [-> ->]; reflexivity | intros H; inversion H; auto].
Qed.

Lemma eqb_refl (s : str) : PyStr.eqb s s = true.
Proof. apply eqb_eq; reflexivity. Qed.

Lemma eqb_neq (s t : str) : PyStr.eqb s t = false <-> s <> t.
Proof.
  rewrite <- eqb_eq. destruct (PyStr.eqb s t); split; congruence.
Qed.

Lemma startswith_app (s p : str) :
  startswith s p = true -> s = p ++ slice_from (List.length p) s.
Proof.
  revert s; induction p as [|c p IH]; intros s H; simpl in *.
  - reflexivity.
  - destruct s as [|d s]; [discriminate|].
    apply andb_true_iff in H as [Hd Hs]. apply N.eqb_eq in Hd. subst d.
    simpl. f_equal. apply IH, Hs.
Qed.

(** A left-stripped string is empty or starts with a character that is no
    whitespace. *)
Lemma lstrip_head (s : str) :
  lstrip s = [] \/ exists c r, lstrip s = c :: r /\ isspace c = false.
Proof.
  induction s as [|c s IH]; simpl; [now left|].
  destruct (isspace c) eqn:E; [exact IH|].
  right; exists c, s; auto.
Qed.

Lemma rstrip_last (s : str) :
  rstrip s = [] \/ exists r c, rstrip s = r ++ [c] /\ isspace c = false.
Proof.
  unfold rstrip. destruct (lstrip_head (rev s)) as [->|(c & r & -> & Hc)].
  - now left.
  - right. exists (rev r), c. simpl. auto.
Qed.

Lemma rstrip_fixed (r : str) (c : char) :
  isspace c = false -> rstrip (r ++ [c]) = r ++ [c].
Proof.
  intros Hc. unfold rstrip. rewrite rev_app_distr. simpl. rewrite Hc.
  simpl. rewrite rev_involutive. reflexivity.
Qed.

(** The label of a marker line is not empty and does not end with
    whitespace. *)
Lemma label_shape (raw : str) :
  is_marker raw = true ->
  exists r c, label_of raw = r ++ [c] /\ isspace c = false.
Proof.
  unfold is_marker, label_of. intros H.
  apply startswith_app in H.
  set (label := slice_from (List.length marker) (strip raw)) in *.
  destruct (rstrip_last (lstrip raw)) as [E|(r & c & E & Hc)];
    fold (strip raw) in E; rewrite E in H.
  - unfold marker in H. cbn in H. discriminate H.
  - destruct (rev label) as [|c' l'] eqn:Er.
    + apply (f_equal (@rev _)) in Er. rewrite rev_involutive in Er.
      simpl in Er. rewrite Er, app_nil_r in H.
      apply (f_equal (@rev _)) in H. rewrite rev_app_distr in H.
      simpl in H. unfold marker in H. cbn in H. inversion H. subst c.
      vm_compute in Hc. discriminate Hc.
    + apply (f_equal (@rev _)) in Er. rewrite rev_involutive in Er.
      simpl in Er. exists (rev l'), c'. split; [exact Er|].
      rewrite Er, app_assoc in H.
      apply app_inj_tail in H as [_ ->]. exact Hc.
Qed.

Lemma label_truthy (raw : str) :
  is_marker raw = true -> truthy (label_of raw) = true.
Proof.
  intros H. destruct (label_shape raw H) as (r & c & -> & _).
  destruct r; reflexivity.
Qed.

(** ** Dictionaries *)

Section DictFacts.
Context {V : Type}.
Implicit Types (d : Dict.t V) (k : str) (v : V).

Lemma get_set_same d k v : Dict.get (Dict.set d k v) k = Some v.
Proof.
  induction d as [|[k' v'] d IH]; simpl.
  - rewrite eqb_refl. reflexivity.
  - destruct (PyStr.eqb k' k) eqn:E; simpl; rewrite E; auto.
Qed.

Lemma get_set_other d k k' v :
  k <> k' -> Dict.get (Dict.set d k v) k' = Dict.get d k'.
Proof.
  intros Hk. induction d as [|[k0 v0] d IH]; simpl.
  - apply eqb_neq in Hk. rewrite Hk. reflexivity.
  - destruct (PyStr.eqb k0 k) eqn:E; simpl.
    + apply eqb_eq in E. subst k0. apply eqb_neq in Hk. rewrite Hk.
      reflexivity.
    + rewrite IH. reflexivity.
Qed.

Lemma get_In_keys d k v : Dict.get d k = Some v -> In k (Dict.keys d).
Proof.
  induction d as [|[k0 v0] d IH]; simpl; [discriminate|].
  destruct (PyStr.eqb k0 k) eqn:E.
  - apply eqb_eq in E. auto.
  - auto.
Qed.

Lemma get_None_keys d k : Dict.get d k = None -> ~ In k (Dict.keys d).
Proof.
  induction d as [|[k0 v0] d IH]; simpl; [tauto|].
  destruct (PyStr.eqb k0 k) eqn:E; [discriminate|].
  apply eqb_neq in E. intros H [H1|H1]; [congruence | exact (IH H H1)].
Qed.

Lemma keys_set_present d k v v0 :
  Dict.get d k = Some v0 -> Dict.keys (Dict.set d k v) = Dict.keys d.
Proof.
  induction d as [|[k1 v1] d IH]; simpl; [discriminate|].
  destruct (PyStr.eqb k1 k) eqn:E; simpl; [reflexivity|].
  intros H. rewrite IH; auto.
Qed.

Lemma keys_set_absent d k v :
  Dict.get d k = None -> Dict.keys (Dict.set d k v) = Dict.keys d ++ [k].
Proof.
  induction d as [|[k1 v1] d IH]; simpl; [reflexivity|].
  destruct (PyStr.eqb k1 k) eqn:E; simpl; [discriminate|].
  intros H. rewrite IH; auto.
Qed.

(** Assignment keeps the keys of a dictionary pairwise distinct. *)
Lemma NoDup_keys_set d k v :
  NoDup (Dict.keys d) -> NoDup (Dict.keys (Dict.set d k v)).
Proof.
  intros H. destruct (Dict.get d k) as [v0|] eqn:E.
  - rewrite (keys_set_present _ _ _ _ E). exact H.
  - rewrite (keys_set_absent _ _ _ E).
    apply NoDup_rev in H. rewrite <- (rev_involutive (_ ++ _)).
    apply NoDup_rev. rewrite rev_app_distr. simpl. constructor; auto.
    rewrite <- in_rev. apply get_None_keys, E.
Qed.
End DictFacts.

(** ** The parser *)

Lemma split_not_nil (sep : char) (s : str) : split sep s <> [].
Proof.
  destruct s as [|c r]; simpl; [discriminate|].
  destruct (c =? sep)%N; [discriminate|].
  destruct (split sep r); discriminate.
Qed.

Lemma parse_line_malformed (line : str) :
  malformed line -> parse_line line = Raise IndexError.
Proof.
  unfold parse_line, malformed.
  destruct (split colon line) as [|p0 ps]; [reflexivity|].
  change (index (p0 :: ps) 0) with (Ok p0). cbn [bind].
  intros [Hlen|(p3 & Hp3 & Hs)]; unfold index.
  - assert (En : nth_error (p0 :: ps) 3 = None)
      by (apply nth_error_None; lia).
    rewrite En. reflexivity.
  - rewrite Hp3. cbn [bind]. rewrite Hs. reflexivity.
Qed.

Lemma parse_line_empty : parse_line [] = Raise IndexError.
Proof. reflexivity. Qed.

Lemma process_line_marker (st : parser_state) (raw : str) :
  is_marker raw = true ->
  process_line st raw =
  ParserState (Dict.set (analysis st) (label_of raw) []) (Some (label_of raw)).
Proof.
  unfold is_marker, process_line, label_of. intros ->. reflexivity.
Qed.

(** What a line that is no marker does to the state. *)
Lemma process_line_candidate (st : parser_state) (raw : str) :
  is_marker raw = false ->
  process_line st raw =
  match open_and_nonempty (current_module st) (strip raw) with
  | Some m =>
      match try_append (analysis st) m (strip raw) with
      | Ok a => ParserState a (current_module st)
      | Raise _ => st
      end
  | None => st
  end.
Proof.
  unfold is_marker, process_line. intros ->. reflexivity.
Qed.

Lemma process_line_unparsed (st : parser_state) (raw : str) (e : exn) :
  is_marker raw = false ->
  parse_line (strip raw) = Raise e ->
  process_line st raw = st.
Proof.
  intros Hm Hp. rewrite (process_line_candidate _ _ Hm).
  destruct (open_and_nonempty _ _); [|reflexivity].
  unfold try_append. rewrite Hp. reflexivity.
Qed.

Lemma parse_lines_app (l1 l2 : list str) :
  parse_lines (l1 ++ l2) = fold_left process_line l2 (parse_lines l1).
Proof. apply fold_left_app. Qed.

(** C2: a line that is malformed as a diagnostic (fewer than four
    segments between colons, or a fourth segment that is empty once
    stripped) yields no tuple: building it raises [IndexError], which the
    [except] clause absorbs.  The turn of the loop either leaves the state
    as it was or, when the line is a marker, opens that unit with an empty
    list; a malformed line that is no marker can be removed from the input
    without changing the report. *)
Theorem malformed_line_skipped (raw : str) :
  malformed (strip raw) ->
  parse_line (strip raw) = Raise IndexError
  /\ (forall st,
         process_line st raw = st
         \/ (is_marker raw = true
             /\ process_line st raw =
                ParserState (Dict.set (analysis st) (label_of raw) [])
                            (Some (label_of raw))))
  /\ (is_marker raw = false ->
      (forall st, process_line st raw = st)
      /\ forall before after,
          parse_pylint_output (before ++ raw :: after)
          = parse_pylint_output (before ++ after)).
Proof.
  intros Hm. pose proof (parse_line_malformed _ Hm) as Hp.
  split; [exact Hp|]. split.
  - intros st. destruct (is_marker raw) eqn:E.
    + right. split; [reflexivity|]. apply process_line_marker, E.
    + left. eapply process_line_unparsed; eauto.
  - intros E. split.
    + intros st. eapply process_line_unparsed; eauto.
    + intros before after. unfold parse_pylint_output.
      rewrite !parse_lines_app. simpl.
      rewrite (process_line_unparsed _ _ _ E Hp). reflexivity.
Qed.

Lemma malformed_line_skipped_witness :
  malformed (strip (lit "foo.py:oops"))
  /\ parse_pylint_output
       [lit "************* Module foo"; lit "foo.py:oops";
        lit "foo.py:1:0: E0001: syntax error (syntax-error)"]
     = parse_pylint_output
       [lit "************* Module foo";
        lit "foo.py:1:0: E0001: syntax error (syntax-error)"].
Proof.
  assert (H : malformed (strip (lit "foo.py:oops"))).
  { left. vm_compute. lia. }
  split; [exact H|].
  destruct (malformed_line_skipped (lit "foo.py:oops") H) as (_ & _ & K).
  destruct (K eq_refl) as [_ K2].
  exact (K2 [lit "************* Module foo"]
            [lit "foo.py:1:0: E0001: syntax error (syntax-error)"]).
Defined.

(** C6 (amended): a line whose stripped content starts with the marker
    opens a unit whose label is what follows the marker in the stripped
    line.  The label is not empty and has no trailing whitespace;
    whitespace between the marker and the rest of the label is kept.  The
    label is bound to an empty list in the report and becomes the current
    module. *)
Theorem marker_opens_unit (st : parser_state) (raw : str) :
  is_marker raw = true ->
  let label := label_of raw in
  strip raw = marker ++ label
  /\ label <> [] /\ rstrip label = label
  /\ process_line st raw
     = ParserState (Dict.set (analysis st) label []) (Some label)
  /\ Dict.get (analysis (process_line st raw)) label = Some []
  /\ current_module (process_line st raw) = Some label.
Proof.
  intros Hm label. pose proof (process_line_marker st raw Hm) as Hp.
  fold label in Hp.
  destruct (label_shape raw Hm) as (r & c & Hl & Hc). fold label in Hl.
  split; [apply startswith_app, Hm|].
  split; [rewrite Hl; destruct r; discriminate|].
  split; [rewrite Hl; apply rstrip_fixed, Hc|].
  split; [exact Hp|].
  rewrite Hp. split; [apply get_set_same | reflexivity].
Qed.

Lemma marker_opens_unit_witness :
  is_marker (lit "  ************* Module foo.bar  ") = true
  /\ process_line initial_state (lit "  ************* Module foo.bar  ")
     = ParserState [(lit "foo.bar", [])] (Some (lit "foo.bar")).
Proof.
  split; [reflexivity|].
  destruct (marker_opens_unit initial_state
              (lit "  ************* Module foo.bar  ") eq_refl)
    as (_ & _ & _ & H & _).
  exact H.
Defined.

(** C6 as it is stated fails on two spaces after "Module": the label of
    a marker line can start with whitespace, since the line is stripped
    before the marker is cut off and what follows is not. *)
Lemma marker_label_not_stripped :
  let raw := lit "************* Module  foo" in
  is_marker raw = true
  /\ current_module (process_line initial_state raw) = Some (lit " foo")
  /\ Dict.keys (parse_pylint_output [raw]) = [lit " foo"]
  /\ strip (lit " foo") <> lit " foo".
Proof.
  cbv zeta. repeat split; try reflexivity.
  vm_compute. discriminate.
Qed.

(** The keys of the report stay pairwise distinct, and the current module
    is one of them. *)
Lemma process_line_NoDup (st : parser_state) (raw : str) :
  NoDup (Dict.keys (analysis st)) ->
  NoDup (Dict.keys (analysis (process_line st raw))).
Proof.
  intros H. unfold process_line.
  destruct (startswith _ _); simpl; [apply NoDup_keys_set, H|].
  destruct (open_and_nonempty _ _) as [m|]; [|exact H].
  unfold try_append.
  destruct (parse_line _); simpl; [|exact H].
  unfold Dict.getitem. destruct (Dict.get _ _); simpl; [|exact H].
  apply NoDup_keys_set, H.
Qed.

Lemma fold_process_line_NoDup (lines : list str) (st : parser_state) :
  NoDup (Dict.keys (analysis st)) ->
  NoDup (Dict.keys (analysis (fold_left process_line lines st))).
Proof.
  revert st; induction lines as [|l lines IH]; intros st H; simpl; auto.
  apply IH, process_line_NoDup, H.
Qed.

Lemma report_keys_NoDup (lines : list str) :
  NoDup (Dict.keys (parse_pylint_output lines)).
Proof. apply fold_process_line_NoDup. constructor. Qed.

(** *** What is stored under one label *)

Section OneLabel.
Variable L : str.

Lemma no_marker_of_cons (l : str) (lines : list str) :
  no_marker_of L (l :: lines) ->
  (is_marker l = true -> label_of l <> L) /\ no_marker_of L lines.
Proof.
  intros H. split.
  - apply H. now left.
  - intros x Hx. apply H. now right.
Qed.

(** While another module is current, the list of [L] is not touched. *)
Lemma other_module_keeps (lines : list str) :
  forall (st : parser_state) (ds : list diagnostic),
    Dict.get (analysis st) L = Some ds ->
    current_module st <> Some L ->
    no_marker_of L lines ->
    Dict.get (analysis (fold_left process_line lines st)) L = Some ds.
Proof.
  induction lines as [|l lines IH]; intros st ds Hget Hcur Hno; simpl.
  - exact Hget.
  - apply no_marker_of_cons in Hno as [Hl Hno].
    destruct (is_marker l) eqn:Em.
    + rewrite (process_line_marker _ _ Em).
      apply IH; [simpl | simpl | exact Hno].
      * rewrite get_set_other; auto.
      * intros H. inversion H. exact (Hl eq_refl H1).
    + rewrite (process_line_candidate _ _ Em).
      destruct (open_and_nonempty _ _) as [m|] eqn:Eo; [|apply IH; auto].
      assert (Hm : m <> L).
      { unfold open_and_nonempty in Eo.
        destruct (current_module st) as [m'|]; [|discriminate].
        destruct (truthy m' && truthy (strip l)); [|discriminate].
        inversion Eo. subst m'. congruence. }
      destruct (try_append _ _ _) as [a|e] eqn:Et; [|apply IH; auto].
      apply IH; [simpl | exact Hcur | exact Hno].
      unfold try_append in Et.
      destruct (parse_line _); simpl in Et; [|discriminate].
      unfold Dict.getitem in Et.
      destruct (Dict.get (analysis st) m); simpl in Et; [|discriminate].
      inversion Et. rewrite get_set_other; auto.
Qed.

Hypothesis L_truthy : truthy L = true.

(** While [L] is current, its list grows by the tuples of the lines that
    parse, up to the next marker. *)
Lemma current_module_collects (lines : list str) :
  forall (st : parser_state) (ds : list diagnostic),
    Dict.get (analysis st) L = Some ds ->
    current_module st = Some L ->
    no_marker_of L lines ->
    Dict.get (analysis (fold_left process_line lines st)) L
    = Some (ds ++ diagnostics_of (until_marker lines)).
Proof.
  induction lines as [|l lines IH]; intros st ds Hget Hcur Hno; simpl.
  - rewrite app_nil_r. exact Hget.
  - apply no_marker_of_cons in Hno as [Hl Hno].
    destruct (is_marker l) eqn:Em.
    + rewrite (process_line_marker _ _ Em). simpl. rewrite app_nil_r.
      apply other_module_keeps; [simpl | simpl | exact Hno].
      * rewrite get_set_other; auto.
      * intros H. inversion H. exact (Hl eq_refl H1).
    + rewrite (process_line_candidate _ _ Em), Hcur.
      unfold diagnostics_of. simpl.
      fold (diagnostics_of (until_marker lines)).
      unfold open_and_nonempty. rewrite L_truthy. simpl.
      destruct (truthy (strip l)) eqn:Et.
      * unfold try_append.
        destruct (parse_line (strip l)) as [d|e]; simpl.
        -- unfold Dict.getitem. rewrite Hget. simpl.
           change (ds ++ d :: diagnostics_of (until_marker lines))
             with (ds ++ [d] ++ diagnostics_of (until_marker lines)).
           rewrite app_assoc. apply IH; [simpl | reflexivity | exact Hno].
           apply get_set_same.
        -- apply IH; auto.
      * assert (Hp : parse_line (strip l) = Raise IndexError)
          by (destruct (strip l); [reflexivity | discriminate]).
        rewrite Hp. simpl. apply IH; auto.
Qed.
End OneLabel.

(** C3: when the label of a marker line does not occur on a later marker
    line (so that this is its last occurrence, whatever came before), the
    report binds the label to the tuples of the lines that parse between
    this marker and the next one, and to nothing from before: the marker
    itself binds the label to an empty list.  The keys of the report are
    pairwise distinct, so the label has one list only. *)
Theorem repeated_marker_overwrites (before after : list str) (m : str) :
  is_marker m = true ->
  (forall l, In l after -> is_marker l = true -> label_of l <> label_of m) ->
  NoDup (Dict.keys (parse_pylint_output (before ++ m :: after)))
  /\ Dict.get (analysis (process_line (parse_lines before) m)) (label_of m)
     = Some []
  /\ Dict.get (parse_pylint_output (before ++ m :: after)) (label_of m)
     = Some (diagnostics_of (until_marker after)).
Proof.
  intros Hm Hlast. split; [apply report_keys_NoDup|].
  pose proof (process_line_marker (parse_lines before) m Hm) as Hp.
  split.
  - rewrite Hp. simpl. apply get_set_same.
  - unfold parse_pylint_output. rewrite parse_lines_app. simpl.
    rewrite Hp.
    change (diagnostics_of (until_marker after))
      with ([] ++ diagnostics_of (until_marker after)).
    apply current_module_collects.
    + apply label_truthy, Hm.
    + simpl. apply get_set_same.
    + reflexivity.
    + exact Hlast.
Qed.

Lemma repeated_marker_overwrites_witness :
  is_marker (lit "************* Module foo") = true
  /\ (forall l, In l [lit "foo.py:2:0: W0611: unused import (unused-import)"] ->
                is_marker l = true ->
                label_of l <> label_of (lit "************* Module foo"))
  /\ Dict.get
       (parse_pylint_output
          [lit "************* Module foo";
           lit "foo.py:1:0: E0001: syntax error (syntax-error)";
           lit "************* Module foo";
           lit "foo.py:2:0: W0611: unused import (unused-import)"])
       (lit "foo")
     = Some [Diagnostic (lit "foo.py") (lit "W")
               (lit "foo.py:2:0: W0611: unused import (unused-import)")].
Proof.
  assert (H : forall l,
             In l [lit "foo.py:2:0: W0611: unused import (unused-import)"] ->
             is_marker l = true ->
             label_of l <> label_of (lit "************* Module foo")).
  { intros l [<-|[]] E. vm_compute in E. discriminate E. }
  split; [reflexivity|]. split; [exact H|].
  destruct (repeated_marker_overwrites
              [lit "************* Module foo";
               lit "foo.py:1:0: E0001: syntax error (syntax-error)"]
              [lit "foo.py:2:0: W0611: unused import (unused-import)"]
              (lit "************* Module foo") eq_refl H) as (_ & _ & K).
  exact K.
Defined.

(** *** Input without marker *)

Lemma no_marker_no_unit (lines : list str) :
  forall st,
    current_module st = None ->
    (forall l, In l lines -> is_marker l = false) ->
    fold_left process_line lines st = st.
Proof.
  induction lines as [|l lines IH]; intros st Hcur Hno; simpl; auto.
  rewrite (process_line_candidate st l) by (apply Hno; now left).
  rewrite Hcur. simpl. apply IH; auto.
  intros x Hx. apply Hno. now right.
Qed.

(** ** The counts *)

Lemma count_error_unrecognized (e w c r f i : Z) (d : diagnostic) :
  recognized d = false ->
  count_error (counts_of e w c r f i) d = counts_of e w c r f i.
Proof.
  unfold recognized, codes, count_error, counts_of.
  cbn -[PyStr.eqb lit Z.add]. case_codes; intros H;
    try discriminate H; reflexivity.
Qed.

Lemma count_error_tally (counts : Dict.t Z) (n : Z) (d : diagnostic) :
  tally counts n ->
  tally (count_error counts d) (n + one_if (recognized d)).
Proof.
  intros (e & w & c & r & f & i & -> & H).
  unfold tally, recognized, codes, count_error, counts_of, one_if.
  cbn -[PyStr.eqb lit Z.add]. case_codes;
    do 6 eexists; (split; [reflexivity | lia]).
Qed.

Lemma count_module_tally (errs : list diagnostic) :
  forall counts n,
    tally counts n ->
    tally (count_module counts errs)
          (n + Z.of_nat (List.length (filter recognized errs))).
Proof.
  unfold count_module.
  induction errs as [|d errs IH]; intros counts n H; simpl.
  - rewrite Z.add_0_r. exact H.
  - apply (count_error_tally _ _ d) in H. apply IH in H.
    destruct (recognized d); simpl List.length; unfold one_if in H.
    + rewrite Nat2Z.inj_succ. replace (n + Z.succ _) with (n + 1 + Z.of_nat (List.length (filter recognized errs))) by lia.
      exact H.
    + rewrite Z.add_0_r in H. exact H.
Qed.

Lemma count_all_tally (modules : list (list diagnostic)) :
  forall counts n,
    tally counts n ->
    tally (fold_left count_module modules counts)
          (n + Z.of_nat (List.length (filter recognized (List.concat modules)))).
Proof.
  induction modules as [|errs modules IH]; intros counts n H; simpl.
  - rewrite Z.add_0_r. exact H.
  - apply (count_module_tally errs) in H. apply IH in H.
    rewrite filter_app, length_app, Nat2Z.inj_add, Z.add_assoc. exact H.
Qed.

Lemma pylint_counts_tally (analysis : report) :
  tally (pylint_counts analysis)
        (Z.of_nat (List.length
                     (filter recognized (List.concat (Dict.values analysis))))).
Proof.
  unfold pylint_counts.
  apply (count_all_tally (Dict.values analysis) initial_counts 0).
  exists 0, 0, 0, 0, 0, 0. repeat split; try reflexivity; lia.
Qed.

Lemma sum_counts_of (e w c r f i : Z) :
  sum (Dict.values (counts_of e w c r f i)) = e + w + c + r + f + i.
Proof. unfold sum. simpl. lia. Qed.

(** C4: [total_issues] is the number of tuples of the report, all units
    together, whose category is one of the six codes; a tuple of another
    category leaves the six counts as they are, a tuple of one of the six
    codes adds one to their sum. *)
Theorem total_issues_counts_recognized (analysis : report) :
  total_issues analysis
  = Z.of_nat (List.length (filter recognized (List.concat (Dict.values analysis))))
  /\ (forall e w c r f i d,
         recognized d = false ->
         count_error (counts_of e w c r f i) d = counts_of e w c r f i)
  /\ (forall e w c r f i d,
         recognized d = true ->
         sum (Dict.values (count_error (counts_of e w c r f i) d))
         = sum (Dict.values (counts_of e w c r f i)) + 1).
Proof.
  split; [|split].
  - unfold total_issues.
    destruct (pylint_counts_tally analysis)
      as (e & w & c & r & f & i & -> & H).
    rewrite sum_counts_of. lia.
  - intros. apply count_error_unrecognized. assumption.
  - intros e w c r f i d Hd.
    unfold recognized, codes, count_error, counts_of in *.
    revert Hd. cbn -[PyStr.eqb lit Z.add]. case_codes; intros Hd;
      try discriminate Hd; unfold sum; simpl; lia.
Qed.

(** ** Rounding stays between two bounds

    The operations of [SpecFloat] round through [binary_round_aux]: the
    mantissa is shifted right until it has the width of the format, the
    bits shifted out decide whether one is added, and the result is
    shifted once more when that carried into a further bit.  For two
    bounds [A * 2^(-k)] and [B * 2^(-k)] with [A] and [B] integers, a
    value between them keeps a mantissa between [A * 2^(-e-k)] and
    [B * 2^(-e-k)] through each of these steps, whatever was shifted
    out, as long as the exponent [e] stays at most [-k]. *)

Lemma pow2_pos (n : Z) : 0 <= n -> 0 < 2 ^ n.
Proof. intros. apply Z.pow_pos_nonneg; lia. Qed.

Lemma pow2_succ (n : Z) : 0 <= n -> 2 ^ (n + 1) = 2 * 2 ^ n.
Proof. intros. rewrite Z.pow_add_r by lia. change (2 ^ 1) with 2. lia. Qed.

Lemma pow2_add (a b : Z) : 0 <= a -> 0 <= b -> 2 ^ (a + b) = 2 ^ a * 2 ^ b.
Proof. intros. apply Z.pow_add_r; assumption. Qed.

Lemma digits2_pos_lower (p : positive) :
  2 ^ (Zpos (digits2_pos p) - 1) <= Zpos p.
Proof.
  induction p as [p IH|p IH|]; simpl digits2_pos.
  - rewrite Pos2Z.inj_succ. pose proof (Pos2Z.inj_xI p).
    replace (Z.succ (Zpos (digits2_pos p)) - 1)
      with (Zpos (digits2_pos p) - 1 + 1) by lia.
    rewrite pow2_succ by lia. lia.
  - rewrite Pos2Z.inj_succ. pose proof (Pos2Z.inj_xO p).
    replace (Z.succ (Zpos (digits2_pos p)) - 1)
      with (Zpos (digits2_pos p) - 1 + 1) by lia.
    rewrite pow2_succ by lia. lia.
  - reflexivity.
Qed.

Lemma digits2_pos_upper (p : positive) :
  Zpos p < 2 ^ Zpos (digits2_pos p).
Proof.
  induction p as [p IH|p IH|]; simpl digits2_pos.
  - rewrite Pos2Z.inj_succ. pose proof (Pos2Z.inj_xI p).
    unfold Z.succ. rewrite pow2_succ by lia. lia.
  - rewrite Pos2Z.inj_succ. pose proof (Pos2Z.inj_xO p).
    unfold Z.succ. rewrite pow2_succ by lia. lia.
  - reflexivity.
Qed.

Lemma digits2_pos_mono (a b : positive) :
  (a <= b)%positive -> Zpos (digits2_pos a) <= Zpos (digits2_pos b).
Proof.
  intros Hab.
  pose proof (digits2_pos_lower a) as Ha.
  pose proof (digits2_pos_upper b) as Hb.
  assert (H : 2 ^ (Zpos (digits2_pos a) - 1) < 2 ^ Zpos (digits2_pos b))
    by lia.
  apply Z.pow_lt_mono_r_iff in H; lia.
Qed.

Section Bound.
Variables A B k : Z.
Hypothesis A_nonneg : 0 <= A.
Hypothesis B_fits : B < 2 ^ 53.
Hypothesis k_range : 0 <= k <= 1074.

Lemma between_nonnegative (x : float) : between A B k x -> nonnegative x.
Proof. intros [[-> _]|(m & e & -> & _)]; exact I. Qed.

Lemma digits_fit (m e : Z) :
  0 <= m -> e <= - k -> m <= B * 2 ^ (- e - k) ->
  fexp prec emax (Zdigits2 m + e) <= - k.
Proof.
  intros Hm He Hb.
  assert (Hd : Zdigits2 m + e - 53 <= - k).
  { destruct m as [|p|p]; simpl Zdigits2; [lia| |lia].
    pose proof (digits2_pos_lower p) as Hd.
    assert (H2 : 2 ^ (Zpos (digits2_pos p) - 1) < 2 ^ (53 + (- e - k))).
    { rewrite pow2_add by lia.
      pose proof (pow2_pos (- e - k) ltac:(lia)). nia. }
    apply Z.pow_lt_mono_r_iff in H2; lia. }
  unfold fexp, SpecFloat.emin, prec, emax. lia.
Qed.

Lemma shr_1_fits (mrs : shr_record) (e : Z) :
  fits A B k mrs e -> e + 1 <= - k -> fits A B k (shr_1 mrs) (e + 1).
Proof.
  unfold fits, ceiling. intros (Hm & He & Ha & Hb) He1.
  replace (- e - k) with (- (e + 1) - k + 1) in Ha, Hb by lia.
  rewrite pow2_succ in Ha, Hb by lia.
  pose proof (pow2_pos (- (e + 1) - k) ltac:(lia)) as Hpos.
  set (P := 2 ^ (- (e + 1) - k)) in *.
  assert (HA : 0 <= A * P) by nia.
  set (KA := A * P) in *. set (KB := B * P) in *.
  replace (A * (2 * P)) with (2 * KA) in Ha by (unfold KA; lia).
  replace (B * (2 * P)) with (2 * KB) in Hb by (unfold KB; lia).
  clearbody KA KB. destruct mrs as [m r s].
  cbn [shr_m shr_r shr_s] in Hm, Ha, Hb.
  destruct m as [|q|q]; [|destruct q as [p|p|]|lia].
  - destruct r, s; cbn [shr_1 shr_m shr_r shr_s orb] in Hb |- *; lia.
  - pose proof (Pos2Z.inj_xI p) as Hp.
    destruct r, s; cbn [shr_1 shr_m shr_r shr_s orb] in Hb |- *; lia.
  - pose proof (Pos2Z.inj_xO p) as Hp.
    destruct r, s; cbn [shr_1 shr_m shr_r shr_s orb] in Hb |- *; lia.
  - destruct r, s; cbn [shr_1 shr_m shr_r shr_s orb] in Hb |- *; lia.
Qed.

Lemma iter_shr_1_fits (p : positive) :
  forall mrs e,
    fits A B k mrs e -> e + Zpos p <= - k ->
    fits A B k (iter_pos shr_1 p mrs) (e + Zpos p).
Proof.
  induction p as [p IH|p IH|]; intros mrs e H He; simpl iter_pos.
  - replace (e + Zpos p~1) with (e + 1 + Zpos p + Zpos p) by lia.
    apply IH; [apply IH; [apply shr_1_fits|]|]; auto; lia.
  - replace (e + Zpos p~0) with (e + Zpos p + Zpos p) by lia.
    apply IH; [apply IH|]; auto; lia.
  - apply shr_1_fits; auto.
Qed.

Lemma shr_fexp_fits (m e : Z) (l : location) :
  0 <= m -> e <= - k ->
  A * 2 ^ (- e - k) <= m ->
  (if loc_exact l then m else m + 1) <= B * 2 ^ (- e - k) ->
  fits A B k (fst (shr_fexp prec emax m e l)) (snd (shr_fexp prec emax m e l)).
Proof.
  intros Hm He Ha Hb.
  assert (H0 : fits A B k (shr_record_of_loc m l) e).
  { unfold fits, ceiling.
    destruct l as [|[]]; simpl in *; repeat split; auto. }
  assert (Hd : fexp prec emax (Zdigits2 m + e) <= - k).
  { apply digits_fit; auto. destruct (loc_exact l); lia. }
  unfold shr_fexp, shr.
  destruct (fexp prec emax (Zdigits2 m + e) - e) as [|p|p] eqn:En;
    simpl fst; simpl snd; auto.
  apply iter_shr_1_fits; auto. lia.
Qed.

Lemma round_nearest_even_ceiling (mrs : shr_record) :
  shr_m mrs
  <= round_nearest_even (shr_m mrs) (loc_of_shr_record mrs)
  <= ceiling mrs.
Proof.
  unfold ceiling. destruct mrs as [m r s]. simpl.
  destruct r, s; simpl; try destruct (Z.even m); lia.
Qed.

(** The rounding of a value between the two bounds is between them; it
    is no infinity and no NaN. *)
Lemma binary_round_aux_between (m e : Z) (l : location) :
  0 <= m -> e <= - k ->
  A * 2 ^ (- e - k) <= m ->
  (if loc_exact l then m else m + 1) <= B * 2 ^ (- e - k) ->
  between A B k (binary_round_aux prec emax false m e l).
Proof.
  intros Hm He Ha Hb. unfold binary_round_aux.
  pose proof (shr_fexp_fits m e l Hm He Ha Hb) as H1.
  destruct (shr_fexp prec emax m e l) as [mrs1 e1]. simpl in H1.
  destruct H1 as (Hm1 & He1 & Ha1 & Hb1).
  pose proof (round_nearest_even_ceiling mrs1) as Hr.
  set (m2 := round_nearest_even (shr_m mrs1) (loc_of_shr_record mrs1)) in *.
  assert (H2 : fits A B k (fst (shr_fexp prec emax m2 e1 loc_Exact))
                    (snd (shr_fexp prec emax m2 e1 loc_Exact))).
  { apply shr_fexp_fits; simpl; lia. }
  destruct (shr_fexp prec emax m2 e1 loc_Exact) as [mrs2 e2]. simpl in H2.
  destruct H2 as (Hm2 & He2 & Ha2 & Hb2). unfold ceiling in Hb2.
  pose proof (pow2_pos (- e2 - k) ltac:(lia)) as Hpos.
  destruct (shr_m mrs2) as [|p|p] eqn:Ep; [left; split; [reflexivity|nia]| |lia].
  assert (Hle : (e2 <=? emax - prec) = true)
    by (apply Z.leb_le; unfold emax, prec; lia).
  rewrite Hle. right. exists p, e2. repeat split; auto.
  destruct (shr_r mrs2 || shr_s mrs2); lia.
Qed.

Lemma iter_xO (d m : positive) :
  Zpos (Pos.iter xO m d) = Zpos m * 2 ^ Zpos d.
Proof.
  induction d as [|d IH] using Pos.peano_ind.
  - simpl. lia.
  - rewrite Pos.iter_succ, Pos2Z.inj_xO, IH, Pos2Z.inj_succ.
    unfold Z.succ. rewrite pow2_succ by lia. lia.
Qed.

(** The same for [binary_round], which first aligns the mantissa. *)
Lemma binary_round_between (m : positive) (e : Z) :
  e <= - k ->
  A * 2 ^ (- e - k) <= Zpos m <= B * 2 ^ (- e - k) ->
  between A B k (binary_round prec emax false m e).
Proof.
  intros He Hm. unfold binary_round, shl_align.
  set (e' := fexp prec emax (Zpos (digits2_pos m) + e)).
  destruct (e' - e) as [|p|p] eqn:E.
  - apply binary_round_aux_between; cbn [loc_exact]; lia.
  - apply binary_round_aux_between; cbn [loc_exact]; lia.
  - rewrite iter_xO.
    assert (Hp : 2 ^ (- e' - k) = 2 ^ (- e - k) * 2 ^ Zpos p).
    { replace (- e' - k) with (- e - k + Zpos p) by lia.
      apply pow2_add; lia. }
    pose proof (pow2_pos (Zpos p) ltac:(lia)).
    apply binary_round_aux_between; cbn [loc_exact]; rewrite ?Hp; nia.
Qed.
End Bound.

(** ** The three operations of the rate *)

Lemma of_int_100 : of_int 100 = hundred.
Proof. vm_compute. reflexivity. Qed.

Lemma new_location_exact (nb q : Z) :
  loc_exact (new_location nb q) = (q =? 0).
Proof.
  unfold new_location, new_location_even, new_location_odd.
  destruct (Z.even nb), (q =? 0); reflexivity.
Qed.

Lemma two_53 : 2 ^ 53 = 9007199254740992.
Proof. reflexivity. Qed.

(** The quotient of two positive integers, rounded once. *)
Lemma SFdiv_between (A B k : Z) (a b : positive) :
  0 <= A -> B < 2 ^ 53 -> 0 <= k <= 1074 ->
  Z.min (fexp prec emax (Zdigits2 (Zpos a) + 0 - (Zdigits2 (Zpos b) + 0)))
        (0 - 0) <= - k ->
  A * Zpos b <= Zpos a * 2 ^ k <= B * Zpos b ->
  between A B k
          (SFdiv prec emax (S754_finite false a 0) (S754_finite false b 0)).
Proof.
  intros HA HB Hk He Hab. unfold SFdiv, SFdiv_core_binary.
  set (e' := Z.min _ _) in *.
  assert (He0 : e' <= 0) by (unfold e'; lia).
  replace (0 - 0 - e') with (- e') by lia.
  set (m' := match - e' with
             | 0 => Zpos a
             | Zpos _ => Z.shiftl (Zpos a) (- e')
             | Zneg _ => 0
             end).
  pose proof (pow2_pos (- e' - k) ltac:(lia)) as HP.
  pose proof (pow2_pos k ltac:(lia)) as Hk2.
  assert (Hm' : m' = Zpos a * 2 ^ k * 2 ^ (- e' - k)).
  { rewrite <- Z.mul_assoc, <- pow2_add by lia.
    replace (k + (- e' - k)) with (- e') by lia.
    unfold m'. destruct (- e') as [|p|p] eqn:E; [simpl; lia| |lia].
    rewrite Z.shiftl_mul_pow2 by lia. reflexivity. }
  set (P := 2 ^ (- e' - k)) in *. set (X := Zpos a * 2 ^ k) in *.
  pose proof (Z_div_mod m' (Zpos b) eq_refl) as Hdiv.
  destruct (Z.div_eucl m' (Zpos b)) as [q r]. destruct Hdiv as [Hq Hr].
  assert (H1 : A * Zpos b * P <= X * P) by nia.
  assert (H2 : X * P <= B * Zpos b * P) by nia.
  assert (Hq0 : 0 <= q) by nia.
  apply binary_round_aux_between; auto.
  - nia.
  - rewrite new_location_exact. destruct (r =? 0) eqn:Er.
    + apply Z.eqb_eq in Er. nia.
    + apply Z.eqb_neq in Er. nia.
Qed.

(** [a / b] for [0 < a <= b]: a float at most 1. *)
Lemma SFdiv_at_most_1 (a b : positive) :
  (a <= b)%positive ->
  between 0 1 0
          (SFdiv prec emax (S754_finite false a 0) (S754_finite false b 0)).
Proof.
  intros Hab. apply SFdiv_between; try lia; rewrite two_53; lia.
Qed.

(** [a / b] for [0 < a <= b <= 2^52]: a float between [2^(-52)] and 1. *)
Lemma SFdiv_small (a b : positive) :
  (a <= b)%positive -> Zpos b <= 2 ^ 52 ->
  between 1 (2 ^ 52) 52
          (SFdiv prec emax (S754_finite false a 0) (S754_finite false b 0)).
Proof.
  intros Hab Hb. change (2 ^ 52) with 4503599627370496 in *.
  pose proof (digits2_pos_mono a b Hab).
  apply SFdiv_between; try lia; try (rewrite two_53; lia).
  unfold fexp, SpecFloat.emin, prec, emax. simpl Zdigits2. lia.
Qed.

(** [q * 100] for a float [q] at most 1: a float at most 100. *)
Lemma SFmul_at_most_100 (q : float) :
  between 0 1 0 q -> between 0 100 0 (mul q hundred).
Proof.
  intros [[-> _]|(m & e & -> & He & Hm)]; [left; split; reflexivity|].
  unfold mul, hundred, SFmul. cbn [xorb].
  pose proof (pow2_pos (- e) ltac:(lia)) as Hpos.
  replace (- e - 0) with (- e) in Hm by lia.
  assert (Hp : 2 ^ (- (e + -46) - 0) = 2 ^ (- e) * 70368744177664).
  { replace (- (e + -46) - 0) with (- e + 46) by lia.
    rewrite pow2_add by lia. reflexivity. }
  apply binary_round_aux_between; try lia;
    try (rewrite two_53; lia);
    cbn [loc_exact]; rewrite Hp, Pos2Z.inj_mul; nia.
Qed.

(** [q * 100] for a float [q] between [2^(-52)] and 1: a float between
    [2^(-46)] and 100. *)
Lemma SFmul_small (q : float) :
  between 1 (2 ^ 52) 52 q ->
  between 1 7036874417766400 46 (mul q hundred).
Proof.
  intros [[_ H]|(m & e & -> & He & Hm)]; [discriminate H|].
  unfold mul, hundred, SFmul. cbn [xorb].
  pose proof (pow2_pos (- e - 52) ltac:(lia)) as Hpos.
  change (2 ^ 52) with 4503599627370496 in Hm.
  assert (Hp : 2 ^ (- (e + -46) - 46) = 4503599627370496 * 2 ^ (- e - 52)).
  { replace (- (e + -46) - 46) with (52 + (- e - 52)) by lia.
    rewrite pow2_add by lia. reflexivity. }
  apply binary_round_aux_between; try lia;
    try (rewrite two_53; lia);
    cbn [loc_exact]; rewrite Hp, Pos2Z.inj_mul; nia.
Qed.

(** Aligning a mantissa on a smaller exponent keeps the value. *)
Lemma shl_align_value (m : positive) (e e' : Z) :
  e' <= e ->
  Zpos (fst (shl_align m e e')) = Zpos m * 2 ^ (e - e').
Proof.
  intros He. unfold shl_align.
  destruct (e' - e) as [|p|p] eqn:E; try lia; cbn [fst snd].
  - replace (e - e') with 0 by lia. simpl. lia.
  - rewrite iter_xO. replace (e - e') with (Zpos p) by lia. auto.
Qed.

(** The difference of two positive floats, when it is not negative. *)
Lemma SFsub_between (A B k : Z) (mx my : positive) (ex ey : Z) :
  0 <= A -> B < 2 ^ 53 -> 0 <= k <= 1074 ->
  Z.min ex ey <= - k ->
  A * 2 ^ (- Z.min ex ey - k)
  <= Zpos mx * 2 ^ (ex - Z.min ex ey) - Zpos my * 2 ^ (ey - Z.min ex ey)
  <= B * 2 ^ (- Z.min ex ey - k) ->
  between A B k (sub (S754_finite false mx ex) (S754_finite false my ey)).
Proof.
  intros HA HB Hk He Hm. unfold sub, SFsub, cond_Zopp.
  set (ez := Z.min ex ey) in *.
  rewrite !shl_align_value by (unfold ez; lia).
  pose proof (pow2_pos (- ez - k) ltac:(lia)) as Hpos.
  unfold binary_normalize.
  destruct (Zpos mx * 2 ^ (ex - ez) - Zpos my * 2 ^ (ey - ez))
    as [|d|d] eqn:Ed.
  - left. split; [reflexivity | nia].
  - apply binary_round_between; auto.
  - nia.
Qed.

Lemma hundred_at_most_100 : between 0 100 0 hundred.
Proof.
  right. exists 7036874417766400%positive, (-46).
  split; [reflexivity|]. split; [lia|]. simpl. lia.
Qed.

(** [100 - p] for a float [p] at most 100: a float at most 100. *)
Lemma SFsub_at_most_100 (p : float) :
  between 0 100 0 p -> between 0 100 0 (sub hundred p).
Proof.
  intros [[-> _]|(m & e & -> & He & Hm)]; [exact hundred_at_most_100|].
  unfold hundred. apply SFsub_between; try lia;
    try (rewrite two_53; lia).
  set (ez := Z.min (-46) e).
  assert (Hez : ez <= 0 /\ ez <= e /\ ez <= -46) by (unfold ez; lia).
  replace (- e - 0) with (- e) in Hm by lia.
  replace (- ez - 0) with (- ez) by lia.
  assert (Hp1 : 7036874417766400 * 2 ^ (-46 - ez) = 100 * 2 ^ (- ez)).
  { replace (- ez) with (46 + (-46 - ez)) by lia.
    rewrite pow2_add by lia. change (2 ^ 46) with 70368744177664. lia. }
  assert (Hp2 : 2 ^ (- ez) = 2 ^ (- e) * 2 ^ (e - ez)).
  { replace (- ez) with (- e + (e - ez)) by lia. apply pow2_add; lia. }
  pose proof (pow2_pos (e - ez) ltac:(lia)).
  pose proof (pow2_pos (- e) ltac:(lia)).
  rewrite Hp1, Hp2. nia.
Qed.

(** [100 - p] for a float [p] between [2^(-46)] and 100: a float at most
    [100 - 2^(-46)]. *)
Lemma SFsub_small (p : float) :
  between 1 7036874417766400 46 p ->
  between 0 7036874417766399 46 (sub hundred p).
Proof.
  intros [[_ H]|(m & e & -> & He & Hm)]; [discriminate H|].
  unfold hundred. apply SFsub_between; try lia;
    try (rewrite two_53; lia).
  replace (Z.min (-46) e) with e by lia.
  replace (e - e) with 0 by lia. replace (-46 - e) with (- e - 46) by lia.
  pose proof (pow2_pos (- e - 46) ltac:(lia)).
  change (2 ^ 0) with 1. nia.
Qed.



(** ** Decimal text *)

Lemma string_of_uint_digits (d : Decimal.uint) :
  Forall is_digit (lit (NilEmpty.string_of_uint d)).
Proof.
  induction d; simpl; constructor; auto; unfold is_digit; simpl; lia.
Qed.

Lemma of_int_digits (n : Z) :
  0 <= n -> PyStr.of_int n <> [] /\ Forall is_digit (PyStr.of_int n).
Proof.
  intros Hn. unfold PyStr.of_int.
  assert (H : forall d, lit (NilZero.string_of_uint d) <> []
                        /\ Forall is_digit (lit (NilZero.string_of_uint d))).
  { intros d. pose proof (string_of_uint_digits d) as Hd.
    destruct d; simpl in *; (split; [discriminate | auto]).
    constructor; [unfold is_digit; simpl; lia | constructor]. }
  destruct n as [|p|p]; [apply H | apply H | lia].
Qed.

Lemma digit_is_digit (n : Z) : 0 <= n <= 9 -> is_digit (digit n).
Proof. unfold is_digit, digit. lia. Qed.

Lemma round_half_even_nonneg (n d : Z) :
  0 <= n -> 0 < d -> 0 <= round_half_even n d.
Proof.
  intros Hn Hd. unfold round_half_even.
  pose proof (Z.div_pos n d Hn Hd).
  destruct (2 * (n mod d) ?= d); try destruct (Z.even (n / d)); lia.
Qed.

Lemma hundredths_nonneg (m : positive) (e : Z) : 0 <= hundredths m e.
Proof.
  unfold hundredths. destruct e as [|p|p].
  - simpl. lia.
  - pose proof (pow2_pos (Zpos p) ltac:(lia)). nia.
  - apply round_half_even_nonneg; [lia | apply pow2_pos; lia].
Qed.

(** The text of a float that is [+0.0] or positive: digits, a point and
    two digits. *)
Lemma format_2f_shape (x : float) :
  nonnegative x ->
  exists int_part d1 d2,
    format_2f x = int_part ++ lit "." ++ [d1; d2]
    /\ int_part <> [] /\ Forall is_digit int_part
    /\ is_digit d1 /\ is_digit d2.
Proof.
  assert (H : forall h, 0 <= h ->
            exists int_part d1 d2,
              fixed2 false h = int_part ++ lit "." ++ [d1; d2]
              /\ int_part <> [] /\ Forall is_digit int_part
              /\ is_digit d1 /\ is_digit d2).
  { intros h Hh. exists (PyStr.of_int (h / 100)).
    exists (digit (h mod 100 / 10)), (digit (h mod 10)).
    assert (0 <= h / 100) by (apply Z.div_pos; lia).
    destruct (of_int_digits (h / 100)) as [H1 H2]; auto.
    split; [reflexivity|]. split; [exact H1|]. split; [exact H2|].
    split.
    - apply digit_is_digit.
      pose proof (Z.mod_pos_bound h 100 ltac:(lia)).
      assert (h mod 100 / 10 < 10) by (apply Z.div_lt_upper_bound; lia).
      assert (0 <= h mod 100 / 10) by (apply Z.div_pos; lia).
      lia.
    - apply digit_is_digit.
      pose proof (Z.mod_pos_bound h 10 ltac:(lia)). lia. }
  destruct x as [[|]|[|]| |[|] m e]; simpl; try contradiction; intros _.
  - apply H. lia.
  - apply H, hundredths_nonneg.
Qed.

(** ** The statistics of a report *)

Lemma int_truediv_at_most_1 (a b : Z) :
  0 < a <= b ->
  exists q, int_truediv a b = Ok q
            /\ between 0 1 0 q
            /\ (b <= 2 ^ 52 -> between 1 (2 ^ 52) 52 q).
Proof.
  intros Hab. unfold int_truediv.
  destruct (b =? 0) eqn:Eb; [apply Z.eqb_eq in Eb; lia|].
  destruct (a =? 0) eqn:Ea; [apply Z.eqb_eq in Ea; lia|].
  destruct (a <? 0) eqn:Ea'; [apply Z.ltb_lt in Ea'; lia|].
  destruct (b <? 0) eqn:Eb'; [apply Z.ltb_lt in Eb'; lia|].
  set (x := SFdiv prec emax _ _).
  assert (H : between 0 1 0 x) by (apply SFdiv_at_most_1; lia).
  assert (H' : b <= 2 ^ 52 -> between 1 (2 ^ 52) 52 x)
    by (intros Hb; apply SFdiv_small; lia).
  clearbody x. exists x. split; [|split; assumption].
  destruct H as [[-> _]|(m & e & -> & _)]; reflexivity.
Qed.

(** What [generate_statistics] computes, step by step. *)
Lemma statistics_steps (analysis : report) :
  exists e w c r f i rate,
    pylint_counts analysis = counts_of e w c r f i
    /\ (0 <= e /\ 0 <= w /\ 0 <= c /\ 0 <= r /\ 0 <= f /\ 0 <= i)
    /\ total_issues analysis = e + w + c + r + f + i
    /\ left_sum analysis = Ok (f + e)
    /\ false_positive_rate analysis = Ok rate
    /\ between 0 100 0 rate
    /\ (total_issues analysis <= 2 ^ 52 ->
        between 0 7036874417766399 46 rate)
    /\ (if f + e =? 0 then rate = zero
        else exists q,
            int_truediv (f + e) (total_issues analysis) = Ok q
            /\ rate = sub (of_int 100) (mul q (of_int 100)))
    /\ generate_statistics analysis
       = Ok (count_line (lit "Total Issues") (total_issues analysis)
               ++ count_line (lit "Errors") e
               ++ count_line (lit "Warnings") w
               ++ count_line (lit "Conventions") c
               ++ count_line (lit "Refactors") r
               ++ count_line (lit "Fatals") f
               ++ count_line (lit "Informations") i
               ++ rate_line rate).
Proof.
  destruct (pylint_counts_tally analysis)
    as (e & w & c & r & f & i & Hc & He & Hw & Hcc & Hr & Hf & Hi & _).
  assert (Ht : total_issues analysis = e + w + c + r + f + i)
    by (unfold total_issues; rewrite Hc; apply sum_counts_of).
  assert (Hl : left_sum analysis = Ok (f + e))
    by (unfold left_sum; rewrite Hc; reflexivity).
  assert (Hrate : exists rate,
             false_positive_rate analysis = Ok rate
             /\ between 0 100 0 rate
             /\ (total_issues analysis <= 2 ^ 52 ->
                 between 0 7036874417766399 46 rate)
             /\ (if f + e =? 0 then rate = zero
                 else exists q,
                     int_truediv (f + e) (total_issues analysis) = Ok q
                     /\ rate = sub (of_int 100) (mul q (of_int 100)))).
  { unfold false_positive_rate. rewrite Hl. cbn [bind].
    destruct (f + e =? 0) eqn:E.
    - exists zero. split; [reflexivity|].
      split; [left; split; reflexivity|].
      split; [intros _; left; split; reflexivity | reflexivity].
    - apply Z.eqb_neq in E.
      destruct (int_truediv_at_most_1 (f + e) (total_issues analysis))
        as (q & Hq & Hq1 & Hq2); [lia|].
      rewrite Hq. cbn [bind]. eexists; split; [reflexivity|].
      rewrite of_int_100. split; [|split].
      + apply SFsub_at_most_100, SFmul_at_most_100, Hq1.
      + intros Hsmall. apply SFsub_small, SFmul_small, Hq2, Hsmall.
      + exists q. auto. }
  destruct Hrate as (rate & Hrate & Hle & Hlt & Hcase).
  exists e, w, c, r, f, i, rate.
  split; [exact Hc|]. split; [tauto|]. split; [exact Ht|].
  split; [exact Hl|]. split; [exact Hrate|]. split; [exact Hle|].
  split; [exact Hlt|]. split; [exact Hcase|].
  unfold generate_statistics. rewrite Hrate, Hc. reflexivity.
Qed.

(** C1: the rate is [0.0] exactly when the sum of the counts of ['F'] and
    ['E'] is 0, whatever the total (the total is not looked at); otherwise
    it is [100 - ((critical / total_issues) * 100)] in float arithmetic.
    The last line of the statistics is the label, the rate as digits, a
    point and exactly two digits, then ['%']. *)
Theorem false_positive_rate_cases (analysis : report) :
  exists f e rate,
    Dict.get (pylint_counts analysis) (lit "F") = Some f
    /\ Dict.get (pylint_counts analysis) (lit "E") = Some e
    /\ left_sum analysis = Ok (f + e)
    /\ false_positive_rate analysis = Ok rate
    /\ (if f + e =? 0 then rate = zero
        else exists q,
            int_truediv (f + e) (total_issues analysis) = Ok q
            /\ rate = sub (of_int 100) (mul q (of_int 100)))
    /\ exists counts_text int_part d1 d2,
        generate_statistics analysis
        = Ok (counts_text ++ lit "Estimated False Positive Rate: "
                ++ format_2f rate ++ lit "%" ++ nl)
        /\ format_2f rate = int_part ++ lit "." ++ [d1; d2]
        /\ int_part <> [] /\ Forall is_digit int_part
        /\ is_digit d1 /\ is_digit d2.
Proof.
  destruct (statistics_steps analysis)
    as (e & w & c & r & f & i & rate
        & Hc & _ & _ & Hl & Hrate & Hle & _ & Hcase & Hs).
  exists f, e, rate.
  split; [rewrite Hc; reflexivity|]. split; [rewrite Hc; reflexivity|].
  split; [exact Hl|]. split; [exact Hrate|]. split; [exact Hcase|].
  destruct (format_2f_shape rate (between_nonnegative _ _ _ _ Hle))
    as (ip & d1 & d2 & Hf & Hne & Hdig & H1 & H2).
  exists (count_line (lit "Total Issues") (total_issues analysis)
            ++ count_line (lit "Errors") e
            ++ count_line (lit "Warnings") w
            ++ count_line (lit "Conventions") c
            ++ count_line (lit "Refactors") r
            ++ count_line (lit "Fatals") f
            ++ count_line (lit "Informations") i), ip, d1, d2.
  split; [|split; [exact Hf|]; split; [exact Hne|]; split; [exact Hdig|];
            split; assumption].
  rewrite Hs. unfold rate_line. rewrite <- !app_assoc. reflexivity.
Qed.

(** C9: the sum of the counts of ['F'] and ['E'] is at most
    [total_issues], of which both counts are summands; when it is positive
    so is [total_issues], the division returns a float, and neither the
    rate nor the statistics raise. *)
Theorem division_is_safe (analysis : report) :
  exists e w c r f i,
    pylint_counts analysis = counts_of e w c r f i
    /\ left_sum analysis = Ok (f + e)
    /\ total_issues analysis = e + w + c + r + f + i
    /\ 0 <= f + e <= total_issues analysis
    /\ (0 < f + e ->
        0 < total_issues analysis
        /\ exists q, int_truediv (f + e) (total_issues analysis) = Ok q)
    /\ (exists rate, false_positive_rate analysis = Ok rate)
    /\ (exists statistics, generate_statistics analysis = Ok statistics).
Proof.
  destruct (statistics_steps analysis)
    as (e & w & c & r & f & i & rate
        & Hc & Hpos & Ht & Hl & Hrate & _ & _ & Hcase & Hs).
  exists e, w, c, r, f, i.
  split; [exact Hc|]. split; [exact Hl|]. split; [exact Ht|].
  split; [lia|]. split; [|split; eauto].
  intros Hcrit. split; [lia|].
  destruct (f + e =? 0) eqn:E; [apply Z.eqb_eq in E; lia|].
  destruct Hcase as (q & Hq & _). eauto.
Qed.

Lemma division_is_safe_witness :
  left_sum (parse_pylint_output scenario_A) = Ok 1
  /\ 0 < total_issues (parse_pylint_output scenario_A).
Proof.
  split; [reflexivity|].
  destruct (division_is_safe (parse_pylint_output scenario_A))
    as (e & w & c & r & f & i & _ & Hl & _ & _ & H & _).
  assert (E : f + e = 1).
  { change (left_sum (parse_pylint_output scenario_A)) with (@Ok Z 1) in Hl.
    inversion Hl. reflexivity. }
  apply H. rewrite E. reflexivity.
Defined.



Lemma count_warnings (n : nat) :
  forall e w c r f i,
    count_module (counts_of e w c r f i) (repeat a_warning n)
    = counts_of e (w + Z.of_nat n) c r f i.
Proof.
  unfold count_module.
  induction n as [|n IH]; intros e w c r f i.
  - simpl. rewrite Z.add_0_r. reflexivity.
  - cbn [repeat fold_left].
    change (count_error (counts_of e w c r f i) a_warning)
      with (counts_of e (w + 1) c r f i).
    rewrite IH. replace (w + 1 + Z.of_nat n) with (w + Z.of_nat (S n)) by lia.
    reflexivity.
Qed.

Lemma one_error_counts (n : nat) :
  pylint_counts [(lit "a", an_error :: repeat a_warning n)]
  = counts_of 1 (Z.of_nat n) 0 0 0 0.
Proof.
  unfold pylint_counts. cbn [Dict.values map snd fold_left].
  unfold count_module at 1. cbn [fold_left].
  change (count_error initial_counts an_error)
    with (counts_of 1 0 0 0 0 0).
  exact (count_warnings n 1 0 0 0 0 0).
Qed.

Lemma huge_counts :
  pylint_counts huge_report = counts_of 1 (2 ^ 54 - 1) 0 0 0 0.
Proof.
  unfold huge_report. rewrite one_error_counts.
  rewrite Z2Nat.id by (vm_compute; discriminate). reflexivity.
Qed.

(** Why the strict bound has a bound on the size: integers and lists
    have no limit here, and with one error among [2^54] tuples, more than
    any run can hold, the rate is the float 100, since the product
    [(1 / 2^54) * 100] is less than half the distance between 100 and the
    float before it. *)
Lemma rate_reaches_100 :
  left_sum huge_report = Ok 1
  /\ total_issues huge_report = 2 ^ 54
  /\ false_positive_rate huge_report = Ok hundred
  /\ to_Q hundred = Some (7036874417766400 # 70368744177664)
  /\ ~ (7036874417766400 # 70368744177664 < 100)%Q.
Proof.
  assert (Hl : left_sum huge_report = Ok 1)
    by (unfold left_sum; rewrite huge_counts; reflexivity).
  assert (Ht : total_issues huge_report = 2 ^ 54)
    by (unfold total_issues; rewrite huge_counts; reflexivity).
  split; [exact Hl|]. split; [exact Ht|]. split; [|split].
  - unfold false_positive_rate. rewrite Hl, Ht. vm_compute. reflexivity.
  - reflexivity.
  - unfold Qlt. simpl. lia.
Qed.

Lemma total_issues_counts_recognized_witness :
  recognized an_unrecognized = false
  /\ count_error initial_counts an_unrecognized = initial_counts.
Proof.
  split; [reflexivity|].
  destruct (total_issues_counts_recognized (parse_pylint_output scenario_A))
    as (_ & H & _).
  exact (H 0 0 0 0 0 0 an_unrecognized eq_refl).
Defined.

(** ** The formatter *)

Lemma bug_lines_listed (d : diagnostic) :
  bug_lines d = if is_potential_bug d then listed_line d else [].
Proof.
  unfold bug_lines, is_potential_bug, listed_line.
  destruct (PyStr.eqb (error_type d) (lit "E")) eqn:E.
  - apply eqb_eq in E. rewrite E. simpl. rewrite app_nil_r. reflexivity.
  - destruct (PyStr.eqb (error_type d) (lit "F")); reflexivity.
Qed.

Lemma flat_map_bug_lines (errors : list diagnostic) :
  flat_map bug_lines errors
  = List.concat (map listed_line (filter is_potential_bug errors)).
Proof.
  induction errors as [|d errors IH]; [reflexivity|].
  cbn [flat_map filter]. rewrite bug_lines_listed, IH.
  destruct (is_potential_bug d); reflexivity.
Qed.

(** C5: after the header "Potential Bugs:" the text lists the diagnostics
    of category ['E'], as "Error: " and the line, and of category ['F'],
    as "Fatal: " and the line, and no other, units in the order of the
    report and diagnostics in the order of their unit; then come the blank
    line, the header "Statistics:" and the statistics. *)
Theorem potential_bugs_section (analysis : report) (statistics : str) :
  write_to_file analysis statistics
  = lit "Potential Bugs:" ++ nl
      ++ List.concat
           (map listed_line
                (filter is_potential_bug (List.concat (Dict.values analysis))))
      ++ nl ++ lit "Statistics:" ++ nl ++ statistics.
Proof.
  assert (H : forall modules : list (list diagnostic),
             flat_map (fun errors => flat_map bug_lines errors) modules
             = List.concat
                 (map listed_line (filter is_potential_bug (List.concat modules)))).
  { induction modules as [|errors modules IH]; [reflexivity|].
    cbn [flat_map List.concat].
    rewrite filter_app, map_app, concat_app, IH, flat_map_bug_lines.
    reflexivity. }
  unfold write_to_file. rewrite H. reflexivity.
Qed.

(** ** The whole script *)

(** C7: from lines none of which is a marker the parser returns the empty
    report, every line being ignored; [total_issues] is 0, the rate is
    [0.0], and the text has nothing between the line "Potential Bugs:" and
    the blank line before "Statistics:". *)
Theorem no_marker_empty_report (lines : list str) :
  (forall l, In l lines -> is_marker l = false) ->
  parse_pylint_output lines = Dict.empty
  /\ total_issues (parse_pylint_output lines) = 0
  /\ false_positive_rate (parse_pylint_output lines) = Ok zero
  /\ generate_statistics (parse_pylint_output lines) = Ok empty_statistics
  /\ run lines
     = Ok (lit "Potential Bugs:" ++ nl
             ++ nl ++ lit "Statistics:" ++ nl ++ empty_statistics).
Proof.
  intros Hno.
  assert (H : parse_pylint_output lines = Dict.empty).
  { unfold parse_pylint_output, parse_lines.
    rewrite no_marker_no_unit; auto. }
  unfold run. rewrite H. repeat split.
Qed.

Lemma no_marker_empty_report_witness :
  (forall l,
      In l [lit "foo.py:1:0: E0001: syntax error (syntax-error)"; lit ""] ->
      is_marker l = false)
  /\ run [lit "foo.py:1:0: E0001: syntax error (syntax-error)"; lit ""]
     = Ok (lit "Potential Bugs:" ++ nl
             ++ nl ++ lit "Statistics:" ++ nl ++ empty_statistics).
Proof.
  assert (H : forall l,
             In l [lit "foo.py:1:0: E0001: syntax error (syntax-error)";
                   lit ""] ->
             is_marker l = false).
  { intros l [<-|[<-|[]]]; reflexivity. }
  split; [exact H|].
  destruct (no_marker_empty_report _ H) as (_ & _ & _ & _ & K). exact K.
Defined.

(** The script never raises. *)
Lemma main_returns (text : str) : exists out, main text = Ok out.
Proof.
  unfold main, run.
  destruct (statistics_steps (parse_pylint_output (readlines text)))
    as (e & w & c & r & f & i & rate & H).
  destruct H as (_ & _ & _ & _ & _ & _ & _ & _ & Hs).
  rewrite Hs. cbn [bind]. eauto.
Qed.

(** * Further properties of the three functions *)

(** ** Lines that do not count *)

Lemma process_line_blank (st : parser_state) (raw : str) :
  strip raw = [] -> process_line st raw = st.
Proof.
  intros H. unfold process_line. rewrite H. cbn [startswith marker].
  change (startswith [] marker) with false. cbv iota.
  unfold open_and_nonempty. destruct (current_module st) as [m|]; auto.
  rewrite andb_false_r. reflexivity.
Qed.

Lemma fold_process_line_filter (keep : str -> bool) (lines : list str) :
  (forall st l, keep l = false -> process_line st l = st) ->
  forall st,
    fold_left process_line (filter keep lines) st
    = fold_left process_line lines st.
Proof.
  intros Hskip. induction lines as [|l lines IH]; intros st; simpl; auto.
  destruct (keep l) eqn:E; simpl.
  - apply IH.
  - rewrite (Hskip st l E). apply IH.
Qed.

(** X7: lines that are empty once stripped (blank lines, lines of
    whitespace) change nothing, wherever they stand: the report of the
    input without them is the report of the input. *)
Theorem blank_lines_ignored (lines : list str) :
  parse_pylint_output (filter (fun l => truthy (strip l)) lines)
  = parse_pylint_output lines.
Proof.
  unfold parse_pylint_output, parse_lines. f_equal.
  apply fold_process_line_filter. intros st l H.
  apply process_line_blank. destruct (strip l); [reflexivity|discriminate].
Qed.

(** X5: the lines before the first marker line are ignored, whatever they
    hold: the report of the input is the report of the input from the
    first marker on. *)
Theorem lines_before_first_marker_ignored (lines : list str) :
  parse_pylint_output lines = parse_pylint_output (from_first_marker lines).
Proof.
  unfold parse_pylint_output, parse_lines.
  induction lines as [|l lines IH]; [reflexivity|].
  cbn [from_first_marker]. destruct (is_marker l) eqn:E; [reflexivity|].
  cbn [fold_left]. rewrite (process_line_candidate _ _ E). exact IH.
Qed.

(** *** Stripping twice *)

Lemma lstrip_fixed (c : char) (s : str) :
  isspace c = false -> lstrip (c :: s) = c :: s.
Proof. intros H. simpl. rewrite H. reflexivity. Qed.

Lemma lstrip_keeps_last (l : str) (c : char) :
  isspace c = false -> exists l', lstrip (l ++ [c]) = l' ++ [c].
Proof.
  intros Hc. induction l as [|a l IH]; simpl.
  - rewrite Hc. exists []. reflexivity.
  - destruct (isspace a); [exact IH|]. exists (a :: l). reflexivity.
Qed.

Lemma rstrip_keeps_head (c : char) (s : str) :
  isspace c = false -> exists s', rstrip (c :: s) = c :: s'.
Proof.
  intros Hc. unfold rstrip. simpl rev.
  destruct (lstrip_keeps_last (rev s) c Hc) as (l' & ->).
  rewrite rev_app_distr. simpl. eauto.
Qed.

Lemma strip_idempotent (s : str) : strip (strip s) = strip s.
Proof.
  unfold strip at 2 3.
  destruct (lstrip_head s) as [->|(c & r & -> & Hc)]; [reflexivity|].
  destruct (rstrip_keeps_head c r Hc) as (s' & E).
  destruct (rstrip_last (c :: r)) as [E'|(r' & c' & E' & Hc')].
  - rewrite E'. reflexivity.
  - unfold strip. rewrite E at 1. rewrite (lstrip_fixed c s' Hc), <- E, E'.
    apply rstrip_fixed, Hc'.
Qed.

Lemma process_line_strip (st : parser_state) (raw : str) :
  process_line st (strip raw) = process_line st raw.
Proof. unfold process_line. rewrite strip_idempotent. reflexivity. Qed.

(** X6: only the stripped content of a line counts: stripping every line
    beforehand (indentation, trailing blanks, the line ending) gives the
    same report. *)
Theorem report_of_stripped_lines (lines : list str) :
  parse_pylint_output (map strip lines) = parse_pylint_output lines.
Proof.
  unfold parse_pylint_output, parse_lines. f_equal.
  generalize initial_state.
  induction lines as [|l lines IH]; intros st; simpl; auto.
  rewrite process_line_strip. apply IH.
Qed.

(** ** Lines that count *)

Lemma parse_line_ok (line : str) (d : diagnostic) :
  parse_line line = Ok d ->
  exists p0 ps p3 c rest,
    split colon line = p0 :: ps
    /\ nth_error (p0 :: ps) 3 = Some p3
    /\ strip p3 = c :: rest
    /\ isspace c = false
    /\ d = Diagnostic (strip p0) [c] line.
Proof.
  unfold parse_line.
  destruct (split colon line) as [|p0 ps] eqn:Es; [discriminate|].
  change (index (p0 :: ps) 0) with (Ok p0). cbn [bind].
  unfold index. destruct (nth_error (p0 :: ps) 3) as [p3|] eqn:E3;
    [|discriminate].
  cbn [bind]. unfold char_at, index.
  destruct (strip p3) as [|c rest] eqn:Ep; [discriminate|].
  cbn [nth_error bind]. intros H. inversion H.
  exists p0, ps, p3, c, rest. repeat split; auto.
  unfold strip in Ep.
  destruct (lstrip_head p3) as [El|(c0 & r0 & El & Hc0)].
  - rewrite El in Ep. discriminate Ep.
  - rewrite El in Ep. destruct (rstrip_keeps_head c0 r0 Hc0) as (s' & E).
    rewrite E in Ep. inversion Ep. subst c0. exact Hc0.
Qed.

(** X2: a stripped line yields a tuple exactly when it is not malformed
    (four segments at least between colons, the fourth one not blank); the
    tuple is then the stripped first segment, the first character of the
    stripped fourth segment, which is no whitespace, and the line
    itself. *)
Theorem parse_line_succeeds_iff (line : str) :
  ((exists d, parse_line line = Ok d) <-> ~ malformed line)
  /\ forall d,
      parse_line line = Ok d <->
      exists p0 ps p3 c rest,
        split colon line = p0 :: ps
        /\ nth_error (p0 :: ps) 3 = Some p3
        /\ strip p3 = c :: rest
        /\ isspace c = false
        /\ d = Diagnostic (strip p0) [c] line.
Proof.
  assert (Hback : forall d,
             (exists p0 ps p3 c rest,
                 split colon line = p0 :: ps
                 /\ nth_error (p0 :: ps) 3 = Some p3
                 /\ strip p3 = c :: rest
                 /\ isspace c = false
                 /\ d = Diagnostic (strip p0) [c] line) ->
             parse_line line = Ok d).
  { intros d (p0 & ps & p3 & c & rest & Es & E3 & Ep & _ & ->).
    unfold parse_line. rewrite Es.
    change (index (p0 :: ps) 0) with (Ok p0). cbn [bind].
    unfold index. rewrite E3. cbn [bind]. unfold char_at, index.
    rewrite Ep. reflexivity. }
  split.
  - split.
    + intros (d & Hd) Hm. rewrite (parse_line_malformed _ Hm) in Hd.
      discriminate Hd.
    + intros Hm. unfold malformed in Hm.
      destruct (split colon line) as [|p0 ps] eqn:Es;
        [exfalso; apply Hm; left; simpl; lia|].
      destruct (nth_error (p0 :: ps) 3) as [p3|] eqn:E3.
      * destruct (strip p3) as [|c rest] eqn:Ep;
          [exfalso; apply Hm; right; eauto|].
        assert (Hc : isspace c = false).
        { unfold strip in Ep.
          destruct (lstrip_head p3) as [El|(c0 & r0 & El & Hc0)];
            rewrite El in Ep; [discriminate Ep|].
          destruct (rstrip_keeps_head c0 r0 Hc0) as (s' & E).
          rewrite E in Ep. inversion Ep. subst c0. exact Hc0. }
        exists (Diagnostic (strip p0) [c] line). apply Hback.
        exists p0, ps, p3, c, rest. auto.
      * exfalso. apply Hm. left. apply nth_error_None in E3. lia.
  - intros d. split; [apply parse_line_ok | apply Hback].
Qed.

(** *** The states the loop goes through *)

(** *** The states the loop goes through *)

Lemma process_line_current_is_key (st : parser_state) (raw : str) :
  current_is_key st -> current_is_key (process_line st raw).
Proof.
  intros Hst. destruct (is_marker raw) eqn:Em.
  - rewrite (process_line_marker _ _ Em). intros m Hm. simpl in Hm.
    inversion Hm. subst m. split; [apply label_truthy, Em|].
    exists []. apply get_set_same.
  - rewrite (process_line_candidate _ _ Em).
    destruct (open_and_nonempty _ _) as [m0|] eqn:Eo; [|exact Hst].
    destruct (try_append _ _ _) as [a|e] eqn:Et; [|exact Hst].
    intros m Hm. cbn [current_module analysis] in *.
    destruct (Hst m Hm) as [Ht _]. split; [exact Ht|].
    unfold open_and_nonempty in Eo. rewrite Hm in Eo.
    destruct (truthy m && truthy (strip raw)); [|discriminate].
    inversion Eo. subst m0. unfold try_append in Et.
    destruct (parse_line _); cbn [bind] in Et; [|discriminate].
    destruct (Dict.getitem _ _); cbn [bind] in Et; [|discriminate].
    inversion Et. eexists. apply get_set_same.
Qed.

Lemma parse_lines_current_is_key (lines : list str) :
  current_is_key (parse_lines lines).
Proof.
  unfold parse_lines.
  assert (H : current_is_key initial_state) by (intros m Hm; discriminate).
  revert H. generalize initial_state.
  induction lines as [|l lines IH]; intros st H; simpl; auto.
  apply IH, process_line_current_is_key, H.
Qed.

(** X1: the current module is always a key of the report, so that the
    [try] block never fails on the lookup: once a unit is open, a line
    that is no marker and yields a tuple adds this tuple at the end of the
    list of the current module, and changes nothing else. *)
Theorem parsed_line_is_appended (lines : list str) (raw m : str)
        (d : diagnostic) :
  current_module (parse_lines lines) = Some m ->
  is_marker raw = false ->
  parse_line (strip raw) = Ok d ->
  exists ds,
    Dict.get (parse_pylint_output lines) m = Some ds
    /\ parse_pylint_output (lines ++ [raw])
       = Dict.set (parse_pylint_output lines) m (ds ++ [d])
    /\ current_module (parse_lines (lines ++ [raw])) = Some m.
Proof.
  intros Hm Em Hd.
  destruct (parse_lines_current_is_key lines m Hm) as [Ht (ds & Hget)].
  exists ds. split; [exact Hget|].
  unfold parse_pylint_output. rewrite parse_lines_app. cbn [fold_left].
  rewrite (process_line_candidate _ _ Em), Hm.
  unfold open_and_nonempty. rewrite Ht.
  assert (Hl : truthy (strip raw) = true).
  { destruct (strip raw); [discriminate Hd | reflexivity]. }
  rewrite Hl. cbn [andb]. unfold try_append. rewrite Hd. cbn [bind].
  unfold Dict.getitem. rewrite Hget. cbn [bind analysis current_module].
  split; reflexivity.
Qed.

Lemma parsed_line_is_appended_witness :
  current_module (parse_lines scenario_B) = Some (lit "foo")
  /\ parse_pylint_output
       (scenario_B ++ [lit "foo.py:3:0: F0002: bad (astroid-error)"])
     = [(lit "foo",
         [Diagnostic (lit "foo.py") (lit "F")
            (lit "foo.py:3:0: F0002: bad (astroid-error)")])].
Proof.
  split; [reflexivity|].
  destruct (parsed_line_is_appended scenario_B
              (lit "foo.py:3:0: F0002: bad (astroid-error)") (lit "foo")
              (Diagnostic (lit "foo.py") (lit "F")
                 (lit "foo.py:3:0: F0002: bad (astroid-error)"))
              eq_refl eq_refl eq_refl) as (ds & Hget & H & _).
  change (Dict.get (parse_pylint_output scenario_B) (lit "foo"))
    with (Some (@nil diagnostic)) in Hget.
  inversion Hget. subst ds. exact H.
Defined.

(** *** Where the tuples come from *)

Lemma in_set {V : Type} (d : Dict.t V) (k k0 : str) (v v0 : V) :
  In (k0, v0) (Dict.set d k v) -> In (k0, v0) d \/ (k0 = k /\ v0 = v).
Proof.
  induction d as [|[k' v'] d IH]; simpl.
  - intros [H|[]]. inversion H. auto.
  - destruct (PyStr.eqb k' k) eqn:E; simpl.
    + intros [H|H]; [|auto]. inversion H. subst.
      apply eqb_eq in E. auto.
    + intros [H|H]; [auto|]. destruct (IH H); auto.
Qed.

Lemma get_In {V : Type} (d : Dict.t V) (k : str) (v : V) :
  Dict.get d k = Some v -> In (k, v) d.
Proof.
  induction d as [|[k' v'] d IH]; simpl; [discriminate|].
  destruct (PyStr.eqb k' k) eqn:E.
  - apply eqb_eq in E. intros H. inversion H. subst. auto.
  - auto.
Qed.

Lemma process_line_every_diagnostic (P : diagnostic -> Prop)
      (st : parser_state) (raw : str) :
  every_diagnostic P (analysis st) ->
  (is_marker raw = false -> forall d, parse_line (strip raw) = Ok d -> P d) ->
  every_diagnostic P (analysis (process_line st raw)).
Proof.
  intros Hst Hraw. destruct (is_marker raw) eqn:Em.
  - rewrite (process_line_marker _ _ Em). cbn [analysis].
    intros k ds d Hin Hd. apply in_set in Hin as [Hin|[_ ->]].
    + exact (Hst k ds d Hin Hd).
    + destruct Hd.
  - rewrite (process_line_candidate _ _ Em).
    destruct (open_and_nonempty _ _) as [m0|]; [|exact Hst].
    destruct (try_append _ _ _) as [a|e] eqn:Et; [|exact Hst].
    cbn [analysis]. unfold try_append in Et.
    destruct (parse_line (strip raw)) as [x|] eqn:Ex;
      cbn [bind] in Et; [|discriminate].
    unfold Dict.getitem in Et.
    destruct (Dict.get (analysis st) m0) as [errors|] eqn:Eg;
      cbn [bind] in Et; [|discriminate].
    inversion Et. intros k ds d Hin Hd.
    apply in_set in Hin as [Hin|[_ ->]].
    + exact (Hst k ds d Hin Hd).
    + apply in_app_or in Hd as [Hd|[<-|[]]].
      * exact (Hst m0 errors d (get_In _ _ _ Eg) Hd).
      * apply Hraw; auto.
Qed.

Lemma parse_every_diagnostic (P : diagnostic -> Prop) (lines : list str) :
  (forall raw d, In raw lines -> is_marker raw = false ->
                 parse_line (strip raw) = Ok d -> P d) ->
  every_diagnostic P (parse_pylint_output lines).
Proof.
  unfold parse_pylint_output, parse_lines.
  assert (H : every_diagnostic P (analysis initial_state))
    by (intros k ds d []).
  revert H. generalize initial_state.
  induction lines as [|l lines IH]; intros st Hst Hl; simpl; auto.
  apply IH.
  - apply process_line_every_diagnostic; auto.
    intros Em d Hd. apply (Hl l d); auto. now left.
  - intros raw d Hin. apply Hl. now right.
Qed.

(** X3: every tuple of the report was built from a line of the input that
    is no marker: its third component is that line, stripped, and its
    category is one character, which is no whitespace.  The parser invents
    no tuple and stores no category longer than a character. *)
Theorem stored_tuples_come_from_lines (lines : list str) (k : str)
        (ds : list diagnostic) (d : diagnostic) :
  In (k, ds) (parse_pylint_output lines) ->
  In d ds ->
  exists raw c,
    In raw lines /\ is_marker raw = false
    /\ parse_line (strip raw) = Ok d
    /\ full_error d = strip raw
    /\ error_type d = [c] /\ isspace c = false.
Proof.
  intros Hk Hd.
  assert (H : every_diagnostic (came_from lines) (parse_pylint_output lines)).
  { apply parse_every_diagnostic. intros raw x Hin Em Hx.
    exists raw. auto. }
  destruct (H k ds d Hk Hd) as (raw & Hin & Em & Hp).
  destruct (parse_line_ok _ _ Hp)
    as (p0 & ps & p3 & c & rest & _ & _ & _ & Hc & ->).
  exists raw, c. repeat split; auto.
Qed.

Lemma stored_tuples_come_from_lines_witness :
  exists raw c,
    In raw scenario_C /\ is_marker raw = false
    /\ parse_line (strip raw)
       = Ok (Diagnostic (lit "foo.py") (lit "W")
               (lit "foo.py:2:0: W0611: unused import (unused-import)"))
    /\ lit "foo.py:2:0: W0611: unused import (unused-import)" = strip raw
    /\ lit "W" = [c] /\ isspace c = false.
Proof.
  exact (stored_tuples_come_from_lines scenario_C (lit "foo")
           [Diagnostic (lit "foo.py") (lit "W")
              (lit "foo.py:2:0: W0611: unused import (unused-import)")]
           (Diagnostic (lit "foo.py") (lit "W")
              (lit "foo.py:2:0: W0611: unused import (unused-import)"))
           (or_introl eq_refl) (or_introl eq_refl)).
Defined.

(** *** The order of the units *)

Lemma keys_set {V : Type} (d : Dict.t V) (k : str) (v : V) :
  Dict.keys (Dict.set d k v) = add_key (Dict.keys d) k.
Proof.
  unfold add_key. induction d as [|[k' v'] d IH]; simpl; [reflexivity|].
  destruct (PyStr.eqb k' k) eqn:E; simpl; [reflexivity|].
  rewrite IH. destruct (existsb _ _); reflexivity.
Qed.

Lemma process_line_keys (st : parser_state) (raw : str) :
  Dict.keys (analysis (process_line st raw))
  = if is_marker raw then add_key (Dict.keys (analysis st)) (label_of raw)
    else Dict.keys (analysis st).
Proof.
  destruct (is_marker raw) eqn:Em.
  - rewrite (process_line_marker _ _ Em). apply keys_set.
  - rewrite (process_line_candidate _ _ Em).
    destruct (open_and_nonempty _ _) as [m0|]; [|reflexivity].
    destruct (try_append _ _ _) as [a|e] eqn:Et; [|reflexivity].
    cbn [analysis]. unfold try_append in Et.
    destruct (parse_line _); cbn [bind] in Et; [|discriminate].
    unfold Dict.getitem in Et.
    destruct (Dict.get (analysis st) m0) eqn:Eg;
      cbn [bind] in Et; [|discriminate].
    inversion Et. eapply keys_set_present, Eg.
Qed.

Lemma fold_process_line_keys (lines : list str) :
  forall st,
    Dict.keys (analysis (fold_left process_line lines st))
    = fold_left add_key (map label_of (filter is_marker lines))
                (Dict.keys (analysis st)).
Proof.
  induction lines as [|l lines IH]; intros st; simpl; [reflexivity|].
  rewrite IH, process_line_keys.
  destruct (is_marker l); reflexivity.
Qed.

Lemma in_add_key (ks : list str) (k k' : str) :
  In k' (add_key ks k) <-> In k' ks \/ k' = k.
Proof.
  unfold add_key. destruct (existsb _ ks) eqn:E.
  - apply existsb_exists in E as (x & Hx & Ex). apply eqb_eq in Ex.
    subst x. split; [auto | intros [H| ->]; auto].
  - rewrite in_app_iff. simpl. intuition.
Qed.

Lemma in_fold_add_key (ls : list str) :
  forall acc k, In k (fold_left add_key ls acc) <-> In k acc \/ In k ls.
Proof.
  induction ls as [|l ls IH]; intros acc k; simpl; [tauto|].
  rewrite IH, in_add_key. intuition.
Qed.

(** X4: the units of the report are the labels of the marker lines, each
    one at the place of its first marker: a label that comes again keeps
    its place.  A string is a key of the report exactly when it is the
    label of a marker line. *)
Theorem report_keys_in_order_of_first_marker (lines : list str) :
  Dict.keys (parse_pylint_output lines) = first_labels lines
  /\ forall k,
      In k (Dict.keys (parse_pylint_output lines)) <->
      exists raw, In raw lines /\ is_marker raw = true /\ label_of raw = k.
Proof.
  assert (H : Dict.keys (parse_pylint_output lines) = first_labels lines)
    by apply fold_process_line_keys.
  split; [exact H|]. intros k. rewrite H. unfold first_labels.
  rewrite in_fold_add_key, in_map_iff. split.
  - intros [[]|(raw & Hl & Hin)]. apply filter_In in Hin as [Hin Hm].
    eauto.
  - intros (raw & Hin & Hm & Hl). right. exists raw. split; [exact Hl|].
    apply filter_In. auto.
Qed.

(** ** The six counts, one by one *)

Lemma eqb_sym (s t : str) : PyStr.eqb s t = PyStr.eqb t s.
Proof.
  destruct (PyStr.eqb s t) eqn:E, (PyStr.eqb t s) eqn:E'; auto.
  - apply eqb_eq in E. apply eqb_neq in E'. congruence.
  - apply eqb_eq in E'. apply eqb_neq in E. congruence.
Qed.

(** Two of the six codes cannot both be the category of a tuple. *)
Ltac clash_of_codes :=
  exfalso;
  repeat match goal with
         | H : PyStr.eqb _ _ = true |- _ => apply eqb_eq in H
         end;
  match goal with
  | H : ?a = ?k, H' : ?b = ?k |- _ =>
      rewrite <- H in H'; vm_compute in H'; discriminate H'
  end.

Lemma count_error_by_code (e w c r f i : Z) (d : diagnostic) :
  count_error (counts_of e w c r f i) d
  = counts_of (e + one_if (PyStr.eqb (lit "E") (error_type d)))
              (w + one_if (PyStr.eqb (lit "W") (error_type d)))
              (c + one_if (PyStr.eqb (lit "C") (error_type d)))
              (r + one_if (PyStr.eqb (lit "R") (error_type d)))
              (f + one_if (PyStr.eqb (lit "F") (error_type d)))
              (i + one_if (PyStr.eqb (lit "I") (error_type d))).
Proof.
  unfold count_error, counts_of, one_if.
  cbn -[PyStr.eqb lit Z.add].
  destruct (PyStr.eqb (lit "E") (error_type d)) eqn:HE;
    destruct (PyStr.eqb (lit "W") (error_type d)) eqn:HW;
    destruct (PyStr.eqb (lit "C") (error_type d)) eqn:HC;
    destruct (PyStr.eqb (lit "R") (error_type d)) eqn:HR;
    destruct (PyStr.eqb (lit "F") (error_type d)) eqn:HF;
    destruct (PyStr.eqb (lit "I") (error_type d)) eqn:HI;
    try clash_of_codes;
    cbn -[PyStr.eqb lit Z.add]; rewrite ?HE, ?HW, ?HC, ?HR, ?HF, ?HI;
    cbn -[PyStr.eqb lit Z.add]; rewrite ?Z.add_0_r; reflexivity.
Qed.

Lemma count_code_cons (code : str) (d : diagnostic) (ds : list diagnostic) :
  count_code code (d :: ds)
  = one_if (PyStr.eqb code (error_type d)) + count_code code ds.
Proof.
  unfold count_code, one_if. cbn [filter].
  destruct (PyStr.eqb code (error_type d)); cbn [List.length]; lia.
Qed.

Lemma count_code_app (code : str) (l1 l2 : list diagnostic) :
  count_code code (l1 ++ l2) = count_code code l1 + count_code code l2.
Proof.
  unfold count_code. rewrite filter_app, length_app. lia.
Qed.

Lemma count_module_by_code (errs : list diagnostic) :
  forall e w c r f i,
    count_module (counts_of e w c r f i) errs
    = counts_of (e + count_code (lit "E") errs)
                (w + count_code (lit "W") errs)
                (c + count_code (lit "C") errs)
                (r + count_code (lit "R") errs)
                (f + count_code (lit "F") errs)
                (i + count_code (lit "I") errs).
Proof.
  unfold count_module.
  induction errs as [|d errs IH]; intros e w c r f i.
  - cbn [fold_left]. unfold count_code. simpl. rewrite !Z.add_0_r.
    reflexivity.
  - cbn [fold_left]. rewrite count_error_by_code, IH, !count_code_cons.
    rewrite !Z.add_assoc. reflexivity.
Qed.

Lemma count_all_by_code (modules : list (list diagnostic)) :
  forall e w c r f i,
    fold_left count_module modules (counts_of e w c r f i)
    = counts_of (e + count_code (lit "E") (List.concat modules))
                (w + count_code (lit "W") (List.concat modules))
                (c + count_code (lit "C") (List.concat modules))
                (r + count_code (lit "R") (List.concat modules))
                (f + count_code (lit "F") (List.concat modules))
                (i + count_code (lit "I") (List.concat modules)).
Proof.
  induction modules as [|errs modules IH]; intros e w c r f i.
  - cbn [fold_left List.concat]. unfold count_code. simpl.
    rewrite !Z.add_0_r. reflexivity.
  - cbn [fold_left List.concat].
    rewrite count_module_by_code, IH, !count_code_app, !Z.add_assoc.
    reflexivity.
Qed.

Lemma pylint_counts_by_code (analysis : report) :
  pylint_counts analysis
  = counts_of (count_code (lit "E") (all_diagnostics analysis))
              (count_code (lit "W") (all_diagnostics analysis))
              (count_code (lit "C") (all_diagnostics analysis))
              (count_code (lit "R") (all_diagnostics analysis))
              (count_code (lit "F") (all_diagnostics analysis))
              (count_code (lit "I") (all_diagnostics analysis)).
Proof.
  unfold pylint_counts, all_diagnostics.
  exact (count_all_by_code (Dict.values analysis) 0 0 0 0 0 0).
Qed.

(** X8: each of the six counts is the number of tuples of the report that
    have exactly this category, and these six numbers are what the
    statistics print after "Errors", "Warnings", "Conventions",
    "Refactors", "Fatals" and "Informations". *)
Theorem counts_are_per_category (analysis : report) :
  pylint_counts analysis
  = counts_of (count_code (lit "E") (all_diagnostics analysis))
              (count_code (lit "W") (all_diagnostics analysis))
              (count_code (lit "C") (all_diagnostics analysis))
              (count_code (lit "R") (all_diagnostics analysis))
              (count_code (lit "F") (all_diagnostics analysis))
              (count_code (lit "I") (all_diagnostics analysis))
  /\ exists rate,
      false_positive_rate analysis = Ok rate
      /\ generate_statistics analysis
         = Ok (count_line (lit "Total Issues") (total_issues analysis)
                 ++ count_line (lit "Errors")
                      (count_code (lit "E") (all_diagnostics analysis))
                 ++ count_line (lit "Warnings")
                      (count_code (lit "W") (all_diagnostics analysis))
                 ++ count_line (lit "Conventions")
                      (count_code (lit "C") (all_diagnostics analysis))
                 ++ count_line (lit "Refactors")
                      (count_code (lit "R") (all_diagnostics analysis))
                 ++ count_line (lit "Fatals")
                      (count_code (lit "F") (all_diagnostics analysis))
                 ++ count_line (lit "Informations")
                      (count_code (lit "I") (all_diagnostics analysis))
                 ++ rate_line rate).
Proof.
  pose proof (pylint_counts_by_code analysis) as Hc.
  split; [exact Hc|].
  destruct (statistics_steps analysis)
    as (e & w & c & r & f & i & rate
        & Hc' & _ & _ & _ & Hrate & _ & _ & _ & Hs).
  exists rate. split; [exact Hrate|].
  rewrite Hc in Hc'. unfold counts_of in Hc'. inversion Hc'. subst.
  exact Hs.
Qed.

Lemma count_code_Permutation (code : str) (l1 l2 : list diagnostic) :
  Permutation l1 l2 -> count_code code l1 = count_code code l2.
Proof.
  induction 1 as [|d l1 l2 _ IH|d1 d2 l|l1 l2 l3 _ IH1 _ IH2].
  - reflexivity.
  - rewrite !count_code_cons, IH. reflexivity.
  - rewrite !count_code_cons. lia.
  - congruence.
Qed.

Lemma generate_statistics_of_counts (a1 a2 : report) :
  pylint_counts a1 = pylint_counts a2 ->
  generate_statistics a1 = generate_statistics a2.
Proof.
  intros H.
  unfold generate_statistics, false_positive_rate, left_sum, total_issues.
  rewrite H. reflexivity.
Qed.

(** X9: the statistics depend on the tuples only, not on the units they
    are filed under nor on their order: two reports with the same tuples,
    in any order and any grouping, have the same statistics. *)
Theorem statistics_ignore_grouping (a1 a2 : report) :
  Permutation (all_diagnostics a1) (all_diagnostics a2) ->
  generate_statistics a1 = generate_statistics a2.
Proof.
  intros H. apply generate_statistics_of_counts.
  rewrite !pylint_counts_by_code.
  rewrite !(count_code_Permutation _ _ _ H). reflexivity.
Qed.

Lemma statistics_ignore_grouping_witness :
  generate_statistics
    [(lit "a", [an_error; a_warning]); (lit "b", [an_unrecognized])]
  = generate_statistics
      [(lit "c", [an_unrecognized; a_warning]); (lit "d", []);
       (lit "e", [an_error])].
Proof.
  apply (statistics_ignore_grouping
           [(lit "a", [an_error; a_warning]); (lit "b", [an_unrecognized])]
           [(lit "c", [an_unrecognized; a_warning]); (lit "d", []);
            (lit "e", [an_error])]).
  exact (Permutation_rev [an_error; a_warning; an_unrecognized]).
Defined.

Lemma length_potential_bugs (ds : list diagnostic) :
  Z.of_nat (List.length (filter is_potential_bug ds))
  = count_code (lit "F") ds + count_code (lit "E") ds.
Proof.
  induction ds as [|d ds IH].
  - reflexivity.
  - rewrite !count_code_cons. cbn [filter].
    destruct (is_potential_bug d) eqn:Hp; unfold is_potential_bug in Hp;
      rewrite (eqb_sym (error_type d) (lit "E")) in Hp;
      rewrite (eqb_sym (error_type d) (lit "F")) in Hp;
      destruct (PyStr.eqb (lit "E") (error_type d)) eqn:HE;
      destruct (PyStr.eqb (lit "F") (error_type d)) eqn:HF;
      try discriminate Hp; try clash_of_codes;
      cbn [List.length one_if]; lia.
Qed.

(** X10: what [write_to_file] lists and what the statistics count agree:
    the text is the header, one line for each tuple of category ['E'] or
    ['F'], the blank line, the second header and the statistics, and the
    number of these lines is the sum of the counts of ['F'] and ['E'],
    the number the rate is computed from. *)
Theorem listed_bugs_match_counts (analysis : report) (statistics : str) :
  exists listed : list str,
    listed
    = map listed_line (filter is_potential_bug (all_diagnostics analysis))
    /\ write_to_file analysis statistics
       = lit "Potential Bugs:" ++ nl
           ++ List.concat listed
           ++ nl ++ lit "Statistics:" ++ nl ++ statistics
    /\ left_sum analysis = Ok (Z.of_nat (List.length listed))
    /\ Dict.getitem (pylint_counts analysis) (lit "F")
       = Ok (count_code (lit "F") (all_diagnostics analysis))
    /\ Dict.getitem (pylint_counts analysis) (lit "E")
       = Ok (count_code (lit "E") (all_diagnostics analysis)).
Proof.
  eexists. split; [reflexivity|]. split; [|split].
  - assert (H : forall modules : list (list diagnostic),
               flat_map (fun errors => flat_map bug_lines errors) modules
               = List.concat
                   (map listed_line
                        (filter is_potential_bug (List.concat modules)))).
    { induction modules as [|errors modules IH]; [reflexivity|].
      cbn [flat_map List.concat].
      rewrite filter_app, map_app, concat_app, IH, flat_map_bug_lines.
      reflexivity. }
    unfold write_to_file, all_diagnostics. rewrite H. reflexivity.
  - unfold left_sum.
    rewrite length_map, pylint_counts_by_code, length_potential_bugs.
    reflexivity.
  - rewrite pylint_counts_by_code. split; reflexivity.
Qed.

(** ** When every counted tuple is an error or a fatal *)

Lemma SFdiv_same (a : positive) :
  between 1 1 0
          (SFdiv prec emax (S754_finite false a 0) (S754_finite false a 0)).
Proof. apply SFdiv_between; try lia; rewrite two_53; lia. Qed.

Lemma int_truediv_same (a : Z) :
  0 < a -> exists q, int_truediv a a = Ok q /\ between 1 1 0 q.
Proof.
  intros Ha. unfold int_truediv.
  destruct (a =? 0) eqn:Ea; [apply Z.eqb_eq in Ea; lia|].
  destruct (a <? 0) eqn:Ea'; [apply Z.ltb_lt in Ea'; lia|].
  pose proof (SFdiv_same (Z.to_pos (Z.abs a))) as H.
  destruct H as [[_ H]|(m & e & E & H)]; [discriminate H|].
  rewrite E. eexists. split; [reflexivity|]. right. eauto.
Qed.

Lemma SFmul_exactly_100 (q : float) :
  between 1 1 0 q -> between 100 100 0 (mul q hundred).
Proof.
  intros [[_ H]|(m & e & -> & He & Hm)]; [discriminate H|].
  unfold mul, hundred, SFmul. cbn [xorb].
  pose proof (pow2_pos (- e) ltac:(lia)) as Hpos.
  replace (- e - 0) with (- e) in Hm by lia.
  assert (Hp : 2 ^ (- (e + -46) - 0) = 2 ^ (- e) * 70368744177664).
  { replace (- (e + -46) - 0) with (- e + 46) by lia.
    rewrite pow2_add by lia. reflexivity. }
  apply binary_round_aux_between; try lia;
    try (rewrite two_53; lia);
    cbn [loc_exact]; rewrite Hp, Pos2Z.inj_mul; nia.
Qed.

Lemma SFsub_exactly_100 (p : float) :
  between 100 100 0 p -> sub hundred p = S754_zero false.
Proof.
  intros [[_ H]|(m & e & -> & He & Hm)]; [discriminate H|].
  unfold sub, hundred, SFsub, cond_Zopp.
  set (ez := Z.min (-46) e).
  assert (Hez : ez <= 0 /\ ez <= e /\ ez <= -46) by (unfold ez; lia).
  rewrite !shl_align_value by lia.
  replace (- e - 0) with (- e) in Hm by lia.
  assert (Hp1 : 7036874417766400 * 2 ^ (-46 - ez) = 100 * 2 ^ (- ez)).
  { replace (- ez) with (46 + (-46 - ez)) by lia.
    rewrite pow2_add by lia. change (2 ^ 46) with 70368744177664. lia. }
  assert (Hp2 : 2 ^ (- ez) = 2 ^ (- e) * 2 ^ (e - ez)).
  { replace (- ez) with (- e + (e - ez)) by lia. apply pow2_add; lia. }
  assert (Hz : Zpos 7036874417766400 * 2 ^ (-46 - ez)
               - Zpos m * 2 ^ (e - ez) = 0).
  { rewrite Hp1, Hp2. nia. }
  rewrite Hz. reflexivity.
Qed.

(** X11: when the sum of the counts of ['F'] and ['E'] is the whole of
    [total_issues] (every counted tuple is an error or a fatal), the rate
    is [0.0], as it is when there is none: [critical / total_issues] is
    the float one, and [100 - 1.0 * 100] is zero. *)
Theorem all_critical_rate_is_zero (analysis : report) :
  left_sum analysis = Ok (total_issues analysis) ->
  false_positive_rate analysis = Ok zero.
Proof.
  intros Hl.
  destruct (statistics_steps analysis)
    as (e & w & c & r & f & i & rate
        & _ & Hpos & _ & Hl' & Hrate & _ & _ & Hcase & _).
  rewrite Hl in Hl'. inversion Hl' as [Ht]. rewrite Hrate. f_equal.
  destruct (f + e =? 0) eqn:E; [exact Hcase|].
  apply Z.eqb_neq in E. destruct Hcase as (q & Hq & ->).
  rewrite Ht in Hq.
  destruct (int_truediv_same (f + e)) as (q' & Hq' & Hb); [lia|].
  rewrite Hq in Hq'. inversion Hq'. subst q'.
  rewrite of_int_100. apply SFsub_exactly_100, SFmul_exactly_100, Hb.
Qed.

Lemma all_critical_rate_is_zero_witness :
  left_sum [(lit "a", [an_error; an_error; an_unrecognized])]
  = Ok (total_issues [(lit "a", [an_error; an_error; an_unrecognized])])
  /\ false_positive_rate [(lit "a", [an_error; an_error; an_unrecognized])]
     = Ok zero.
Proof.
  split; [reflexivity|].
  exact (all_critical_rate_is_zero
           [(lit "a", [an_error; an_error; an_unrecognized])] eq_refl).
Defined.

(** ** Nothing is lost when the labels differ *)

Lemma not_In_get_None {V : Type} (d : Dict.t V) (k : str) :
  ~ In k (Dict.keys d) -> Dict.get d k = None.
Proof.
  induction d as [|[k' v'] d IH]; simpl; [reflexivity|].
  intros H. destruct (PyStr.eqb k' k) eqn:E.
  - apply eqb_eq in E. tauto.
  - apply IH. tauto.
Qed.

Lemma set_absent {V : Type} (d : Dict.t V) (k : str) (v : V) :
  Dict.get d k = None -> Dict.set d k v = d ++ [(k, v)].
Proof.
  induction d as [|[k' v'] d IH]; simpl; [reflexivity|].
  destruct (PyStr.eqb k' k); [discriminate|].
  intros H. rewrite IH; auto.
Qed.

Lemma get_last {V : Type} (d : Dict.t V) (m : str) (v : V) :
  ~ In m (Dict.keys d) -> Dict.get (d ++ [(m, v)]) m = Some v.
Proof.
  induction d as [|[k' v'] d IH]; simpl.
  - rewrite eqb_refl. reflexivity.
  - intros H. destruct (PyStr.eqb k' m) eqn:E.
    + apply eqb_eq in E. tauto.
    + apply IH. tauto.
Qed.

Lemma set_last {V : Type} (d : Dict.t V) (m : str) (v v' : V) :
  ~ In m (Dict.keys d) ->
  Dict.set (d ++ [(m, v)]) m v' = d ++ [(m, v')].
Proof.
  induction d as [|[k' v0] d IH]; simpl.
  - rewrite eqb_refl. reflexivity.
  - intros H. destruct (PyStr.eqb k' m) eqn:E.
    + apply eqb_eq in E. tauto.
    + rewrite IH; tauto.
Qed.

Lemma all_diagnostics_last (d : report) (m : str) (ds : list diagnostic) :
  all_diagnostics (d ++ [(m, ds)]) = all_diagnostics d ++ ds.
Proof.
  unfold all_diagnostics, Dict.values.
  rewrite map_app, concat_app. simpl. rewrite app_nil_r. reflexivity.
Qed.

Lemma diagnostics_of_cons (l : str) (lines : list str) :
  diagnostics_of (l :: lines)
  = match parse_line (strip l) with
    | Ok d => [d]
    | Raise _ => []
    end ++ diagnostics_of lines.
Proof. reflexivity. Qed.

(** With the current module last in the report and no label coming
    again, the tuples are collected in the order of the lines. *)
Lemma collect_in_order (rest : list str) :
  forall (d : report) (m : str) (ds : list diagnostic),
    truthy m = true ->
    ~ In m (Dict.keys d) ->
    NoDup (map label_of (filter is_marker rest)) ->
    (forall l, In l rest -> is_marker l = true ->
               ~ In (label_of l) (Dict.keys d) /\ label_of l <> m) ->
    all_diagnostics
      (analysis (fold_left process_line rest
                           (ParserState (d ++ [(m, ds)]) (Some m))))
    = all_diagnostics d ++ ds
        ++ diagnostics_of (filter (fun l => negb (is_marker l)) rest).
Proof.
  induction rest as [|l rest IH]; intros d m ds Ht Hm Hnd Hnew.
  - cbn [fold_left analysis filter]. rewrite all_diagnostics_last.
    unfold diagnostics_of. simpl. rewrite app_nil_r. reflexivity.
  - cbn [fold_left filter]. destruct (is_marker l) eqn:Em.
    + cbn [negb]. cbn [filter map] in Hnd. rewrite Em in Hnd.
      cbn [map] in Hnd. inversion Hnd as [|y ys Hfresh Hnd']. subst y ys.
      destruct (Hnew l (or_introl eq_refl) Em) as [Hl1 Hl2].
      rewrite (process_line_marker _ _ Em). cbn [analysis].
      assert (Hk : ~ In (label_of l) (Dict.keys (d ++ [(m, ds)]))).
      { unfold Dict.keys. rewrite map_app, in_app_iff. simpl.
        intros [H|[H|[]]]; [exact (Hl1 H) | exact (Hl2 (eq_sym H))]. }
      rewrite (set_absent _ _ _ (not_In_get_None _ _ Hk)).
      rewrite IH; auto.
      * rewrite all_diagnostics_last. simpl. rewrite <- app_assoc.
        reflexivity.
      * apply label_truthy, Em.
      * intros x Hx Ex. split.
        -- unfold Dict.keys. rewrite map_app, in_app_iff. simpl.
           destruct (Hnew x (or_intror Hx) Ex) as [H1 H2].
           intros [H|[H|[]]]; [exact (H1 H) | exact (H2 (eq_sym H))].
        -- intros E. apply Hfresh. rewrite <- E. apply in_map.
           apply filter_In. auto.
    + cbn [negb]. cbn [filter] in Hnd. rewrite Em in Hnd.
      assert (Hnew' : forall x, In x rest -> is_marker x = true ->
                                ~ In (label_of x) (Dict.keys d)
                                /\ label_of x <> m).
      { intros x Hx. apply Hnew. now right. }
      rewrite (process_line_candidate _ _ Em). cbn [current_module analysis].
      unfold open_and_nonempty. rewrite Ht. cbn [andb].
      rewrite diagnostics_of_cons.
      destruct (truthy (strip l)) eqn:El.
      * unfold try_append.
        destruct (parse_line (strip l)) as [x|e]; cbn [bind].
        -- unfold Dict.getitem. rewrite (get_last _ _ _ Hm). cbn [bind].
           rewrite (set_last _ _ _ _ Hm), IH; auto.
           rewrite <- !app_assoc. reflexivity.
        -- rewrite IH; auto.
      * assert (Hp : parse_line (strip l) = Raise IndexError)
          by (destruct (strip l); [reflexivity | discriminate]).
        rewrite Hp, IH; auto.
Qed.

Lemma collect_from_start (lines : list str) :
  NoDup (map label_of (filter is_marker lines)) ->
  all_diagnostics (analysis (fold_left process_line lines initial_state))
  = diagnostics_of (candidate_lines lines).
Proof.
  unfold candidate_lines.
  induction lines as [|l lines IH]; intros Hnd; [reflexivity|].
  cbn [fold_left from_first_marker filter] in *.
  destruct (is_marker l) eqn:Em.
  - cbn [map] in Hnd. inversion Hnd as [|y ys Hfresh Hnd']. subst y ys.
    rewrite (process_line_marker _ _ Em). cbn [analysis initial_state].
    cbn [filter]. rewrite Em. cbn [negb].
    change (Dict.set Dict.empty (label_of l) [])
      with (@nil (str * list diagnostic) ++ [(label_of l, @nil diagnostic)]).
    rewrite collect_in_order; auto.
    + apply label_truthy, Em.
    + intros x Hin Ex. split; [intros []|].
      intros E. apply Hfresh. rewrite <- E. apply in_map, filter_In. auto.
  - rewrite (process_line_candidate _ _ Em). cbn [current_module initial_state].
    cbn [open_and_nonempty]. apply IH, Hnd.
Qed.

(** X12: when no label comes twice among the marker lines, nothing is
    lost: the tuples of the report, unit after unit, are the tuples of the
    lines after the first marker that are no markers and that parse, in
    the order of the input; [total_issues] counts those of them whose
    category is one of the six codes. *)
Theorem distinct_labels_keep_every_tuple (lines : list str) :
  NoDup (map label_of (filter is_marker lines)) ->
  all_diagnostics (parse_pylint_output lines)
  = diagnostics_of (candidate_lines lines)
  /\ total_issues (parse_pylint_output lines)
     = Z.of_nat
         (List.length
            (filter recognized (diagnostics_of (candidate_lines lines)))).
Proof.
  intros Hnd. pose proof (collect_from_start lines Hnd) as H.
  split; [exact H|].
  destruct (pylint_counts_tally (parse_pylint_output lines))
    as (e & w & c & r & f & i & Hc & _ & _ & _ & _ & _ & _ & Hsum).
  unfold total_issues. rewrite Hc, sum_counts_of, Hsum.
  fold (all_diagnostics (parse_pylint_output lines)).
  unfold parse_pylint_output, parse_lines. rewrite H. reflexivity.
Qed.

Lemma distinct_labels_keep_every_tuple_witness :
  NoDup (map label_of (filter is_marker scenario_A))
  /\ total_issues (parse_pylint_output scenario_A)
     = Z.of_nat
         (List.length
            (filter recognized (diagnostics_of (candidate_lines scenario_A)))).
Proof.
  assert (H : NoDup (map label_of (filter is_marker scenario_A))).
  { vm_compute. constructor; [intros [] | constructor]. }
  split; [exact H|].
  destruct (distinct_labels_keep_every_tuple scenario_A H) as [_ K].
  exact K.
Defined.

(** ** Tuples of another category *)

Lemma code_is_recognized (code : str) (d : diagnostic) :
  In code codes -> PyStr.eqb code (error_type d) = true ->
  recognized d = true.
Proof.
  intros Hin He. unfold recognized. apply existsb_exists. eauto.
Qed.

Lemma potential_bug_is_recognized (d : diagnostic) :
  is_potential_bug d = true -> recognized d = true.
Proof.
  unfold is_potential_bug. intros H. apply orb_true_iff in H as [H|H];
    rewrite eqb_sym in H;
    [apply (code_is_recognized (lit "E")) | apply (code_is_recognized (lit "F"))];
    auto; unfold codes; simpl; tauto.
Qed.

Lemma count_code_only_recognized (code : str) (ds : list diagnostic) :
  In code codes ->
  count_code code (filter recognized ds) = count_code code ds.
Proof.
  intros Hin. induction ds as [|d ds IH]; [reflexivity|].
  cbn [filter]. destruct (recognized d) eqn:Er.
  - rewrite !count_code_cons, IH. reflexivity.
  - rewrite count_code_cons, IH.
    destruct (PyStr.eqb code (error_type d)) eqn:E; [|reflexivity].
    rewrite (code_is_recognized code d Hin E) in Er. discriminate Er.
Qed.

Lemma all_diagnostics_only_recognized (analysis : report) :
  all_diagnostics (only_recognized analysis)
  = filter recognized (all_diagnostics analysis).
Proof.
  unfold all_diagnostics, only_recognized, Dict.values.
  induction analysis as [|[k ds] analysis IH]; [reflexivity|].
  cbn [map snd fst List.concat]. rewrite filter_app, IH. reflexivity.
Qed.

Lemma bug_lines_only_recognized (errs : list diagnostic) :
  flat_map bug_lines (filter recognized errs) = flat_map bug_lines errs.
Proof.
  induction errs as [|d errs IH]; [reflexivity|].
  cbn [filter flat_map]. destruct (recognized d) eqn:Er.
  - cbn [flat_map]. rewrite IH. reflexivity.
  - rewrite IH, bug_lines_listed.
    destruct (is_potential_bug d) eqn:Ep; [|reflexivity].
    rewrite (potential_bug_is_recognized d Ep) in Er. discriminate Er.
Qed.

(** X13: a tuple whose category is none of the six codes has no effect on
    what is written: without these tuples the report has the same
    statistics and the same text. *)
Theorem unrecognized_tuples_have_no_effect (analysis : report) :
  generate_statistics (only_recognized analysis)
  = generate_statistics analysis
  /\ forall statistics,
      write_to_file (only_recognized analysis) statistics
      = write_to_file analysis statistics.
Proof.
  split.
  - apply generate_statistics_of_counts.
    rewrite !pylint_counts_by_code, all_diagnostics_only_recognized.
    rewrite !count_code_only_recognized; [reflexivity|..];
      unfold codes; simpl; tauto.
  - intros statistics. unfold write_to_file. do 2 f_equal.
    f_equal. unfold only_recognized, Dict.values.
    induction analysis as [|[k ds] analysis IH]; [reflexivity|].
    cbn [map snd fst flat_map].
    rewrite bug_lines_only_recognized, IH. reflexivity.
Qed.
